(** * ColegiosPro service workers: offline cache and push notifications

    A shallow embedding of the two service-worker scripts of the repository,
    [src/static/sw.js] (served from /sw.js, the application worker) and the
    landing-page worker (push notifications + offline cache), together with
    the part of the browser platform their handlers call: Cache Storage,
    fetch, the Push and Notification interfaces, window clients and the
    worker life cycle.

    Conventions of the model.
    - A promise chain is run to completion: [Async A] threads the [World]
      and settles as [Fulfilled] or [Rejected], [then_] and [catch_] are
      the two promise combinators, [detach] is a promise nobody awaits.
    - Everything a handler asks of the platform that the page or the user
      can observe is appended, in order, to the [effects] of the world.
    - A request is its method and its absolute URL, fragment included, as
      [request.url] gives it; a response is its status and its body. Cache
      Storage compares URLs without their fragment, stores GET requests of
      an http(s) URL only, and refuses partial content (status 206).
      Responses carry no headers: matching by [Vary] is outside the model.
    - The URL parser is the platform's: the environment of an event gives
      the absolute URL of a manifest entry.
    - [showNotification], [focus], [postMessage] and [openWindow] are
      recorded as the calls the listeners make, with the arguments as the
      listeners pass them: what the platform does to an argument (the
      conversion of a title to a string, the structured clone of the data)
      comes after. The notification permission is granted.
    - JSON numbers are integers: the handlers only test them for zero. *)

From Stdlib Require Import ZArith Ascii String List Bool Lia.
From stdpp Require Import gmap strings list fin_maps.

Import ListNotations.
Local Open Scope string_scope.
Local Open Scope Z_scope.

(** ** JavaScript values *)

Set Warnings "-register-all".

Module JS.

(** The values that [JSON.parse] and the structured clone of a message or
    of a notification's [data] can produce, plus [undefined]. An object
    is the list of its own properties; a lookup takes the first. *)
Inductive Value : Type :=
| Undefined
| Null
| Bool (b : bool)
| Num (n : Z)
| Str (s : string)
| Arr (items : list Value)
| Obj (props : list (string * Value)).

Inductive Error : Type :=
| TypeError
| SyntaxError
| InvalidStateError.

(** How a computation or a promise ends. *)
Inductive Settled (A : Type) : Type :=
| Fulfilled (a : A)
| Rejected (e : Error).
Arguments Fulfilled {A} a.
Arguments Rejected {A} e.

(** ToBoolean. *)
Definition truthy (v : Value) : bool :=
  match v with
  | Undefined | Null => false
  | Bool b => b
  | Num n => negb (n =? 0)
  | Str s => negb (String.eqb s "")
  | Arr _ | Obj _ => true
  end.

(** [a || b] *)
Definition or (a b : Value) : Value := if truthy a then a else b.

Fixpoint assoc (k : string) (props : list (string * Value)) : option Value :=
  match props with
  | [] => None
  | (k', v) :: rest => if String.eqb k k' then Some v else assoc k rest
  end.

(** Whether the value is an object that has the property as its own. *)
Definition has (v : Value) (k : string) : bool :=
  match v with
  | Obj props => match assoc k props with Some _ => true | None => false end
  | _ => false
  end.

(** [v.k] for the property names the workers read ([title], [body],
    [icon], [url], [chatMessage], [type]): none of them is inherited from
    a prototype, so a primitive or an array has them [undefined], and
    reading a property of [null] or [undefined] throws a TypeError. *)
Definition get (v : Value) (k : string) : Settled Value :=
  match v with
  | Undefined | Null => Rejected TypeError
  | Obj props =>
      Fulfilled (match assoc k props with Some x => x | None => Undefined end)
  | _ => Fulfilled Undefined
  end.

(** Sequencing of computations that may throw. *)
Definition bind {A B} (x : Settled A) (f : A -> Settled B) : Settled B :=
  match x with
  | Fulfilled a => f a
  | Rejected e => Rejected e
  end.

(** [v?.k] *)
Definition get_opt (v : Value) (k : string) : Value :=
  match get v k with
  | Fulfilled x => x
  | Rejected _ => Undefined
  end.

(** [a === b] where [b] is a string literal. *)
Definition strict_eq_str (a : Value) (s : string) : bool :=
  match a with
  | Str s' => String.eqb s' s
  | _ => false
  end.

(** Whether the value is [null] or [undefined]. *)
Definition nullish (v : Value) : bool :=
  match v with
  | Undefined | Null => true
  | _ => false
  end.

(** [hay.includes(needle)] *)
Fixpoint includes (hay needle : string) : bool :=
  String.prefix needle hay
  || match hay with
     | EmptyString => false
     | String _ rest => includes rest needle
     end.

End JS.

Export JS(Settled, Fulfilled, Rejected).

(** ** The browser platform *)

Module Platform.

Record Request : Type := { method : string; url : string }.

(** The GET request of an absolute URL: what [cache.addAll] builds from a
    manifest entry once the entry is resolved. *)
Definition request_of (u : string) : Request := {| method := "GET"; url := u |}.

(** The URL without its fragment: a serialised URL has at most one ["#"],
    which starts the fragment. *)
Fixpoint strip_fragment (u : string) : string :=
  match u with
  | EmptyString => EmptyString
  | String c rest =>
      if Ascii.eqb c "#"%char then EmptyString else String c (strip_fragment rest)
  end.

(** What a cache compares of a request: its URL without the fragment. *)
Definition cache_key (req : Request) : string := strip_fragment (url req).

(** Whether the scheme of an absolute URL is http or https. *)
Definition http_scheme (u : string) : bool :=
  String.prefix "http://" u || String.prefix "https://" u.

Record Response : Type := { status : Z; body : string }.

(** [response.ok] *)
Definition ok (r : Response) : bool := (200 <=? status r) && (status r <=? 299).

(** Partial content, which no cache stores. *)
Definition partial_content (r : Response) : bool := status r =? 206.

(** What the network does with one request: [fetch] rejects, or resolves
    with a response of any status. *)
Inductive NetResult : Type :=
| NetError
| NetResponse (r : Response).

Definition Network : Type := Request -> NetResult.

(** A cache bucket maps the key of a GET request to the captured response;
    Cache Storage keeps the buckets in creation order, which is the order
    of [caches.keys()] and of the search of [caches.match]. *)
Abbreviation Bucket := (gmap string Response).
Definition CacheStorage : Type := list (string * Bucket).

Record Client : Type := { client_id : nat; client_url : string }.

Record NotificationOptions : Type := {
  opt_body : JS.Value;
  opt_icon : JS.Value;
  opt_badge : JS.Value;
  opt_vibrate : JS.Value;
  opt_data : JS.Value;
  opt_actions : JS.Value
}.

(** The [data] attribute of the notification shown with these options: a
    clone of the member, [null] when the member is missing. *)
Definition notification_data (o : NotificationOptions) : JS.Value :=
  match opt_data o with
  | JS.Undefined => JS.Null
  | v => v
  end.

(** The platform calls of the handlers that leave a trace. *)
Inductive Effect : Type :=
| SkipWaiting
| ClientsClaim
| ConsoleLog (msg : string) (err : JS.Error)
| ShowNotification (title : JS.Value) (options : NotificationOptions)
| NotificationClose
| ClientFocus (c : Client)
| ClientPostMessage (c : Client) (message : JS.Value)
| OpenWindow (target : JS.Value).

(** ServiceWorkerState; [Installed] is the waiting state. *)
Inductive WorkerState : Type :=
| Installing
| Installed
| Activating
| Activated
| Redundant.

Record World : Type := {
  caches : CacheStorage;
  worker : WorkerState;
  skip_waiting_flag : bool;
  effects : list Effect
}.

Definition with_caches (cs : CacheStorage) (w : World) : World :=
  {| caches := cs; worker := worker w;
     skip_waiting_flag := skip_waiting_flag w; effects := effects w |}.

Definition emit (e : Effect) (w : World) : World :=
  {| caches := caches w; worker := worker w;
     skip_waiting_flag := skip_waiting_flag w; effects := (effects w ++ [e])%list |}.

(** *** Promises *)

Definition Async (A : Type) : Type := World -> Settled A * World.

Definition resolve {A} (a : A) : Async A := fun w => (Fulfilled a, w).
Definition reject {A} (e : JS.Error) : Async A := fun w => (Rejected e, w).

(** [p.then(f)] *)
Definition then_ {A B} (p : Async A) (f : A -> Async B) : Async B :=
  fun w =>
    match p w with
    | (Fulfilled a, w') => f a w'
    | (Rejected e, w') => (Rejected e, w')
    end.

(** [p.catch(h)] *)
Definition catch_ {A} (p : Async A) (h : JS.Error -> Async A) : Async A :=
  fun w =>
    match p w with
    | (Fulfilled a, w') => (Fulfilled a, w')
    | (Rejected e, w') => h e w'
    end.

(** A promise that is started and never awaited: its work is done, its
    outcome is lost. *)
Definition detach {A} (p : Async A) : Async unit :=
  fun w => (Fulfilled tt, snd (p w)).

Definition perform (e : Effect) : Async unit :=
  fun w => (Fulfilled tt, emit e w).

Notation "p >>= f" := (then_ p f) (at level 50, left associativity).

(** *** Cache Storage *)

Fixpoint find_bucket (name : string) (cs : CacheStorage) : option Bucket :=
  match cs with
  | [] => None
  | (n, b) :: rest => if String.eqb n name then Some b else find_bucket name rest
  end.

Fixpoint update_bucket (name : string) (f : Bucket -> Bucket) (cs : CacheStorage)
  : CacheStorage :=
  match cs with
  | [] => []
  | (n, b) :: rest =>
      if String.eqb n name then (n, f b) :: rest
      else (n, b) :: update_bucket name f rest
  end.

Definition bucket_names (cs : CacheStorage) : list string := map fst cs.

(** [caches.open(name)]: the bucket is created, last, when there is none;
    the cache object is represented by its name. *)
Definition caches_open (name : string) : Async string :=
  fun w =>
    match find_bucket name (caches w) with
    | Some _ => (Fulfilled name, w)
    | None => (Fulfilled name, with_caches (caches w ++ [(name, ∅)])%list w)
    end.

(** [caches.keys()] *)
Definition caches_keys : Async (list string) :=
  fun w => (Fulfilled (bucket_names (caches w)), w).

Definition delete_bucket (k : string) (cs : CacheStorage) : CacheStorage :=
  List.filter (fun nb => negb (String.eqb (fst nb) k)) cs.

(** [caches.delete(k)] resolves to whether there was such a bucket. *)
Definition caches_delete (k : string) : Async bool :=
  fun w =>
    (Fulfilled (match find_bucket k (caches w) with Some _ => true | None => false end),
     with_caches (delete_bucket k (caches w)) w).

(** [cache.put(request, response)]: rejects with a TypeError unless the
    request is a GET of an http(s) URL and the response is not partial
    content; otherwise the response replaces what the bucket holds for the
    request. *)
Definition cache_put (cache : string) (req : Request) (resp : Response) : Async unit :=
  fun w =>
    if http_scheme (url req) && String.eqb (method req) "GET"
       && negb (partial_content resp)
    then (Fulfilled tt,
          with_caches
            (update_bucket cache (fun b => <[cache_key req := resp]> b) (caches w)) w)
    else (Rejected JS.TypeError, w).

(** [cache.match(request)] on one bucket. *)
Definition bucket_match (req : Request) (b : Bucket) : option Response :=
  if String.eqb (method req) "GET" then b !! cache_key req else None.

(** [caches.match(request)]: the first bucket, in creation order, that
    holds the request; [undefined] ([None]) when none does. *)
Fixpoint storage_match (req : Request) (cs : CacheStorage) : option Response :=
  match cs with
  | [] => None
  | (_, b) :: rest =>
      match bucket_match req b with
      | Some r => Some r
      | None => storage_match req rest
      end
  end.

Definition caches_match (req : Request) : Async (option Response) :=
  fun w => (Fulfilled (storage_match req (caches w)), w).

(** [fetch(request)] *)
Definition fetch (net : Network) (req : Request) : Async Response :=
  fun w =>
    match net req with
    | NetResponse r => (Fulfilled r, w)
    | NetError => (Rejected JS.TypeError, w)
    end.

(** The requests of a batch of URLs, [new Request(u)] for each: a TypeError
    when an entry is not a valid URL or its scheme is not http(s). *)
Fixpoint requests_of (resolve_url : string -> option string) (urls : list string)
  : Settled (list Request) :=
  match urls with
  | [] => Fulfilled []
  | u :: rest =>
      match resolve_url u with
      | None => Rejected JS.TypeError
      | Some absolute =>
          if http_scheme absolute then
            match requests_of resolve_url rest with
            | Fulfilled qs => Fulfilled (request_of absolute :: qs)
            | Rejected e => Rejected e
            end
          else Rejected JS.TypeError
      end
  end.

(** The responses of a batch, when every request of it is answered with an
    ok response that is not partial content; a TypeError otherwise. *)
Fixpoint fetch_all (net : Network) (reqs : list Request)
  : Settled (list (Request * Response)) :=
  match reqs with
  | [] => Fulfilled []
  | q :: rest =>
      match net q with
      | NetError => Rejected JS.TypeError
      | NetResponse r =>
          if ok r && negb (partial_content r) then
            match fetch_all net rest with
            | Fulfilled rs => Fulfilled ((q, r) :: rs)
            | Rejected e => Rejected e
            end
          else Rejected JS.TypeError
      end
  end.

(** No two keys of the list are the same. *)
Fixpoint distinct (ks : list string) : bool :=
  match ks with
  | [] => true
  | k :: rest => negb (existsb (String.eqb k) rest) && distinct rest
  end.

(** What [cache.addAll(urls)] has in hand when it starts to write: the
    requests and their responses, or the reason of the rejection. Two
    requests of one batch that a cache cannot tell apart are an
    InvalidStateError. *)
Definition gather (net : Network) (resolve_url : string -> option string)
    (urls : list string) : Settled (list (Request * Response)) :=
  match requests_of resolve_url urls with
  | Rejected e => Rejected e
  | Fulfilled reqs =>
      match fetch_all net reqs with
      | Rejected e => Rejected e
      | Fulfilled rs =>
          if distinct (map cache_key reqs) then Fulfilled rs
          else Rejected JS.InvalidStateError
      end
  end.

Definition put_all (cache : string) (rs : list (Request * Response)) (cs : CacheStorage)
  : CacheStorage :=
  fold_left
    (fun acc qr => update_bucket cache (fun b => <[cache_key (fst qr) := snd qr]> b) acc)
    rs cs.

(** [cache.addAll(urls)]: all the responses are stored, or, when the batch
    cannot be gathered, the promise rejects and nothing is stored. *)
Definition cache_addAll (net : Network) (resolve_url : string -> option string)
    (cache : string) (urls : list string) : Async unit :=
  fun w =>
    match gather net resolve_url urls with
    | Fulfilled rs => (Fulfilled tt, with_caches (put_all cache rs (caches w)) w)
    | Rejected e => (Rejected e, w)
    end.

(** [Promise.all(ks.map(f))] *)
Fixpoint promise_all {A B} (f : A -> Async B) (ks : list A) : Async (list B) :=
  match ks with
  | [] => resolve []
  | k :: rest => f k >>= fun b => promise_all f rest >>= fun bs => resolve (b :: bs)
  end.

(** *** Life cycle *)

(** [self.skipWaiting()]: sets the flag, and a waiting worker is activated. *)
Definition skipWaiting : Async unit :=
  fun w =>
    (Fulfilled tt,
     emit SkipWaiting
       {| caches := caches w;
          worker := match worker w with Installed => Activating | s => s end;
          skip_waiting_flag := true;
          effects := effects w |}).

(** [self.clients.claim()] *)
Definition clients_claim : Async unit := perform ClientsClaim.

End Platform.

Import Platform.

(** ** What the two deployments share: configuration and events *)

(** The constants in which the two scripts differ: the version string of
    the cache bucket, the install manifest, and the icon and badge paths. *)
Record Config : Type := {
  CACHE_NAME : string;
  ASSETS : list string;
  ICON : string;
  BADGE : string
}.

(** [event.data] of a push event: [text()] is the body, [json()] parses it
    and throws a SyntaxError when it is not JSON. *)
Record PushMessageData : Type := {
  text : string;
  json : Settled JS.Value
}.

(** The object bound to [data] in the push listener; a missing property is
    [undefined]. *)
Record NotificationData : Type := {
  d_title : JS.Value;
  d_body : JS.Value;
  d_icon : JS.Value;
  d_badge : JS.Value;
  d_vibrate : JS.Value;
  d_data : JS.Value;
  d_actions : JS.Value
}.

Definition set_body (b : JS.Value) (d : NotificationData) : NotificationData :=
  {| d_title := d_title d; d_body := b; d_icon := d_icon d; d_badge := d_badge d;
     d_vibrate := d_vibrate d; d_data := d_data d; d_actions := d_actions d |}.

(** What surrounds one event: the network, [self.location.origin], the
    URL parser with the location of the worker as base ([None] for what is
    not a valid URL), and the window clients that [clients.matchAll]
    returns. *)
Record Env : Type := {
  net : Network;
  origin : string;
  resolve_url : string -> option string;
  windowClients : list Client
}.

(** A script, as the listeners it registers. The fetch listener answers
    [None] when it returns without calling [respondWith]; a script may
    register no message listener. *)
Record ServiceWorker : Type := {
  on_install : Env -> Async unit;
  on_activate : Env -> Async unit;
  on_fetch : Env -> Request -> option (Async (option Response));
  on_push : Env -> option PushMessageData -> Async unit;
  on_notificationclick : Env -> JS.Value -> Async unit;
  on_message : option (Env -> JS.Value -> Async unit)
}.

(** [event.waitUntil(p); rest]: the statements after [waitUntil] run before
    any callback of [p]; the event settles as [p] does. *)
Definition waitUntil_then (p : Async unit) (rest : Async unit) : Async unit :=
  fun w => p (snd (rest w)).

(** The literals of the push listener that are the same in both scripts. *)
Definition default_title : JS.Value := JS.Str "ColegiosPro".
Definition default_body : JS.Value := JS.Str "Tiene un nuevo mensaje".
Definition vibrate_pattern : JS.Value := JS.Arr [JS.Num 200; JS.Num 100; JS.Num 200].
Definition notification_actions : JS.Value :=
  JS.Arr [ JS.Obj [("action", JS.Str "open"); ("title", JS.Str "Abrir")];
           JS.Obj [("action", JS.Str "reply"); ("title", JS.Str "Responder")] ].

(** ** src/static/sw.js *)

Module App.

Definition config : Config :=
  {| CACHE_NAME := "colegiospro-v1";
     ASSETS := [ "/"; "/demo"; "/manifest.json";
                 "/static/img/duilio-cta.jpg"; "/static/img/duilio-chat.jpg";
                 "/static/img/icon-192.png" ];
     ICON := "/static/img/icon-192.png";
     BADGE := "/static/img/icon-192.png" |}.

Section Listeners.
Variable cfg : Config.

Definition install (env : Env) : Async unit :=
  waitUntil_then
    (catch_
       (caches_open (CACHE_NAME cfg) >>= fun cache =>
        cache_addAll (net env) (resolve_url env) cache (ASSETS cfg))
       (fun err => perform (ConsoleLog "Cache addAll failed:" err)))
    skipWaiting.

Definition activate (env : Env) : Async unit :=
  waitUntil_then
    (caches_keys >>= fun keys =>
     promise_all caches_delete
       (List.filter (fun k => negb (String.eqb k (CACHE_NAME cfg))) keys) >>= fun _ =>
     resolve tt)
    clients_claim.

Definition fetch (env : Env) (request : Request) : option (Async (option Response)) :=
  if negb (String.eqb (method request) "GET") then None
  else if JS.includes (url request) "/ws/" then None
  else Some
    (catch_
       (Platform.fetch (net env) request >>= fun response =>
        (if ok response
         then detach (caches_open (CACHE_NAME cfg) >>= fun cache =>
                      cache_put cache request response)
         else resolve tt) >>= fun _ =>
        resolve (Some response))
       (fun _ => caches_match request)).

Definition push_default : NotificationData :=
  {| d_title := default_title; d_body := default_body;
     d_icon := JS.Str (ICON cfg); d_badge := JS.Undefined;
     d_vibrate := JS.Undefined; d_data := JS.Undefined;
     d_actions := JS.Undefined |}.

(** The body of the [try] block: the value assigned to [data], or what is
    thrown before the assignment. *)
Definition push_try (data : NotificationData) (event_data : option PushMessageData)
  : Settled NotificationData :=
  match event_data with
  | None => Fulfilled data
  | Some d =>
      JS.bind (json d) (fun payload =>
      JS.bind (JS.get payload "title") (fun p_title =>
      JS.bind (JS.get payload "body") (fun p_body =>
      JS.bind (JS.get payload "icon") (fun p_icon =>
      JS.bind (JS.get payload "url") (fun p_url =>
      JS.bind (JS.get payload "chatMessage") (fun p_chatMessage =>
      Fulfilled
        {| d_title := JS.or p_title (d_title data);
           d_body := JS.or p_body (d_body data);
           d_icon := JS.or p_icon (d_icon data);
           d_badge := JS.Str (BADGE cfg);
           d_vibrate := vibrate_pattern;
           d_data := JS.Obj [ ("url", JS.or p_url (JS.Str "/"));
                              ("chatMessage", JS.or p_chatMessage JS.Null) ];
           d_actions := notification_actions |}))))))
  end.

Definition push_data (event_data : option PushMessageData) : NotificationData :=
  let data := push_default in
  match push_try data event_data with
  | Fulfilled data' => data'
  | Rejected _ =>
      set_body (match event_data with
                | Some d => JS.Str (text d)
                | None => d_body data
                end) data
  end.

(** [showNotification(data.title, data)]: the options are read from [data]
    itself. *)
Definition push (env : Env) (event_data : option PushMessageData) : Async unit :=
  let data := push_data event_data in
  perform (ShowNotification (d_title data)
             {| opt_body := d_body data; opt_icon := d_icon data;
                opt_badge := d_badge data; opt_vibrate := d_vibrate data;
                opt_data := d_data data; opt_actions := d_actions data |}).

Fixpoint click_loop (env : Env) (data url : JS.Value) (clients : list Client)
  : Async unit :=
  match clients with
  | [] => perform (OpenWindow url)
  | client :: rest =>
      if JS.includes (client_url client) (origin env) then
        perform (ClientFocus client) >>= fun _ =>
        if JS.truthy (JS.get_opt data "chatMessage") then
          match JS.get data "chatMessage" with
          | Fulfilled m =>
              perform (ClientPostMessage client
                         (JS.Obj [("type", JS.Str "OPEN_CHAT"); ("message", m)]))
          | Rejected e => reject e
          end
        else resolve tt
      else click_loop env data url rest
  end.

Definition notificationclick (env : Env) (data : JS.Value) : Async unit :=
  perform NotificationClose >>= fun _ =>
  let url := JS.or (JS.get_opt data "url") (JS.Str "/") in
  click_loop env data url (windowClients env).

End Listeners.

Definition worker (cfg : Config) : ServiceWorker :=
  {| on_install := install cfg;
     on_activate := activate cfg;
     on_fetch := fetch cfg;
     on_push := push cfg;
     on_notificationclick := notificationclick;
     on_message := None |}.

End App.

(** ** The landing-page worker (push notifications + offline cache) *)

Module Landing.

Definition config : Config :=
  {| CACHE_NAME := "colegiospro-landing-v1";
     ASSETS := [ "/"; "/index.html"; "/manifest.json";
                 "https://fonts.googleapis.com/css2?family=Outfit:wght@300;400;500;600;700;800;900&family=DM+Sans:ital,wght@0,400;0,500;0,600;0,700;1,400&display=swap" ];
     ICON := "/icon-192.png";
     BADGE := "/icon-192.png" |}.

Section Listeners.
Variable cfg : Config.

Definition install (env : Env) : Async unit :=
  waitUntil_then
    (caches_open (CACHE_NAME cfg) >>= fun cache =>
     cache_addAll (net env) (resolve_url env) cache (ASSETS cfg))
    skipWaiting.

Definition activate (env : Env) : Async unit :=
  waitUntil_then
    (caches_keys >>= fun keys =>
     promise_all caches_delete
       (List.filter (fun k => negb (String.eqb k (CACHE_NAME cfg))) keys) >>= fun _ =>
     resolve tt)
    clients_claim.

Definition fetch (env : Env) (request : Request) : option (Async (option Response)) :=
  if negb (String.eqb (method request) "GET") then None
  else Some
    (catch_
       (Platform.fetch (net env) request >>= fun response =>
        (if ok response
         then detach (caches_open (CACHE_NAME cfg) >>= fun cache =>
                      cache_put cache request response)
         else resolve tt) >>= fun _ =>
        resolve (Some response))
       (fun _ => caches_match request)).

Definition push_default : NotificationData :=
  {| d_title := default_title; d_body := default_body;
     d_icon := JS.Str (ICON cfg); d_badge := JS.Undefined;
     d_vibrate := JS.Undefined; d_data := JS.Undefined;
     d_actions := JS.Undefined |}.

Definition push_try (data : NotificationData) (event_data : option PushMessageData)
  : Settled NotificationData :=
  match event_data with
  | None => Fulfilled data
  | Some d =>
      JS.bind (json d) (fun payload =>
      JS.bind (JS.get payload "title") (fun p_title =>
      JS.bind (JS.get payload "body") (fun p_body =>
      JS.bind (JS.get payload "icon") (fun p_icon =>
      JS.bind (JS.get payload "url") (fun p_url =>
      JS.bind (JS.get payload "chatMessage") (fun p_chatMessage =>
      Fulfilled
        {| d_title := JS.or p_title (d_title data);
           d_body := JS.or p_body (d_body data);
           d_icon := JS.or p_icon (d_icon data);
           d_badge := JS.Str (BADGE cfg);
           d_vibrate := vibrate_pattern;
           d_data := JS.Obj [ ("url", JS.or p_url (JS.Str "/"));
                              ("chatMessage", JS.or p_chatMessage JS.Null) ];
           d_actions := notification_actions |}))))))
  end.

Definition push_data (event_data : option PushMessageData) : NotificationData :=
  let data := push_default in
  match push_try data event_data with
  | Fulfilled data' => data'
  | Rejected _ =>
      set_body (match event_data with
                | Some d => JS.Str (text d)
                | None => d_body data
                end) data
  end.

(** The options are spelled out, the badge falling back to the icon. *)
Definition push (env : Env) (event_data : option PushMessageData) : Async unit :=
  let data := push_data event_data in
  perform (ShowNotification (d_title data)
             {| opt_body := d_body data; opt_icon := d_icon data;
                opt_badge := JS.or (d_badge data) (d_icon data);
                opt_vibrate := d_vibrate data;
                opt_data := d_data data; opt_actions := d_actions data |}).

Fixpoint click_loop (env : Env) (data url : JS.Value) (clients : list Client)
  : Async unit :=
  match clients with
  | [] => perform (OpenWindow url)
  | client :: rest =>
      if JS.includes (client_url client) (origin env) then
        perform (ClientFocus client) >>= fun _ =>
        if JS.truthy (JS.get_opt data "chatMessage") then
          match JS.get data "chatMessage" with
          | Fulfilled m =>
              perform (ClientPostMessage client
                         (JS.Obj [("type", JS.Str "OPEN_CHAT"); ("message", m)]))
          | Rejected e => reject e
          end
        else resolve tt
      else click_loop env data url rest
  end.

Definition notificationclick (env : Env) (data : JS.Value) : Async unit :=
  perform NotificationClose >>= fun _ =>
  let url := JS.or (JS.get_opt data "url") (JS.Str "/") in
  click_loop env data url (windowClients env).

(** [if (event.data && event.data.type === 'SKIP_WAITING')] *)
Definition message (env : Env) (data : JS.Value) : Async unit :=
  if JS.truthy data && JS.strict_eq_str (JS.get_opt data "type") "SKIP_WAITING"
  then skipWaiting
  else resolve tt.

End Listeners.

Definition worker (cfg : Config) : ServiceWorker :=
  {| on_install := install cfg;
     on_activate := activate cfg;
     on_fetch := fetch cfg;
     on_push := push cfg;
     on_notificationclick := notificationclick;
     on_message := Some message |}.

End Landing.

(** ** Dispatching events to a script *)

Inductive Event : Type :=
| InstallEvent
| ActivateEvent
| FetchEvent (request : Request)
| PushEvent (data : option PushMessageData)
| NotificationClickEvent (data : JS.Value)
| MessageEvent (data : JS.Value).

(** What the platform learns from a listener: how the promise given to
    [waitUntil] or [respondWith] settled, that [respondWith] was not
    called, or that no listener is registered. *)
Inductive Outcome : Type :=
| Settles (s : Settled unit)
| Responds (s : Settled (option Response))
| NotIntercepted
| NoListener.

Definition dispatch (sw : ServiceWorker) (env : Env) (ev : Event) (w : World)
  : Outcome * World :=
  match ev with
  | InstallEvent => let (s, w') := on_install sw env w in (Settles s, w')
  | ActivateEvent => let (s, w') := on_activate sw env w in (Settles s, w')
  | FetchEvent request =>
      match on_fetch sw env request with
      | Some p => let (s, w') := p w in (Responds s, w')
      | None => (NotIntercepted, w)
      end
  | PushEvent data => let (s, w') := on_push sw env data w in (Settles s, w')
  | NotificationClickEvent data =>
      let (s, w') := on_notificationclick sw env data w in (Settles s, w')
  | MessageEvent data =>
      match on_message sw with
      | Some h => let (s, w') := h env data w in (Settles s, w')
      | None => (NoListener, w)
      end
  end.

(** What the page that issued the request gets: the response given to
    [respondWith]; a failed fetch when the promise rejects or resolves
    with [undefined]; the answer of the network when the worker stays out. *)
Definition page_receives (env : Env) (request : Request) (o : Outcome) : NetResult :=
  match o with
  | Responds (Fulfilled (Some r)) => NetResponse r
  | NotIntercepted => net env request
  | _ => NetError
  end.

(** A run of events, each in its own environment. *)
Fixpoint run (sw : ServiceWorker) (evs : list (Env * Event)) (w : World) : World :=
  match evs with
  | [] => w
  | (env, ev) :: rest => run sw rest (snd (dispatch sw env ev w))
  end.

(** ** Notions used in the statements *)

(** The bucket names that differ from the current version string. *)
Definition stale_names (cfg : Config) (cs : CacheStorage) : list string :=
  List.filter (fun k => negb (String.eqb k (CACHE_NAME cfg))) (bucket_names cs).


(** The world after [caches.open(CACHE_NAME)] preceded by [skipWaiting()]:
    where the install listener stands when [addAll] starts. *)
Definition install_opened (cfg : Config) (w : World) : World :=
  snd (caches_open (CACHE_NAME cfg) (snd (skipWaiting w))).



(** What [cache.addAll] has in hand for a manifest entry that it can
    store: the request and its response. *)
Definition asset_pair (env : Env) (a : string) : option (Request * Response) :=
  match resolve_url env a with
  | Some u =>
      if http_scheme u then
        match net env (request_of u) with
        | NetResponse r =>
            if ok r && negb (partial_content r) then Some (request_of u, r) else None
        | NetError => None
        end
      else None
  | None => None
  end.

(** The keys under which the manifest would be stored. *)
Definition manifest_keys (cfg : Config) (env : Env) : list string :=
  map (fun a => match resolve_url env a with
                | Some u => strip_fragment u
                | None => ""
                end) (ASSETS cfg).



(** The value [field || dflt] takes, by whether the payload has the field:
    the default when the field is missing, and also when it is falsy. *)
Definition or_default (field : option JS.Value) (dflt : JS.Value) : JS.Value :=
  match field with
  | Some v => if JS.truthy v then v else dflt
  | None => dflt
  end.

(** The data envelope the push listener builds from a parsed payload. *)
Definition envelope (props : list (string * JS.Value)) : JS.Value :=
  JS.Obj [ ("url", or_default (JS.assoc "url" props) (JS.Str "/"));
           ("chatMessage", or_default (JS.assoc "chatMessage" props) JS.Null) ].

(** The window client the click listener settles on: the first, in the
    order of [clients.matchAll], whose URL contains the origin. *)
Definition matching_client (env : Env) : option Client :=
  List.find (fun c => JS.includes (client_url c) (origin env)) (windowClients env).

(** The message posted to the focused client. *)
Definition open_chat (chatMessage : JS.Value) : JS.Value :=
  JS.Obj [ ("type", JS.Str "OPEN_CHAT"); ("message", chatMessage) ].

(** The body of the notification when nothing could be read from the push
    message: its text when there is one, the default otherwise. *)
Definition fallback_body (event_data : option PushMessageData) : JS.Value :=
  match event_data with
  | Some d => JS.Str (text d)
  | None => default_body
  end.

(** A message whose data is an object with [type: 'SKIP_WAITING']. *)
Definition asks_skip_waiting (data : JS.Value) : Prop :=
  exists props, data = JS.Obj props /\
                JS.assoc "type" props = Some (JS.Str "SKIP_WAITING").



(** ** Scenarios *)

Definition fresh_world : World :=
  {| caches := []; worker := Installing; skip_waiting_flag := false; effects := [] |}.

Definition waiting_world : World :=
  {| caches := []; worker := Installed; skip_waiting_flag := false; effects := [] |}.

Definition page_200 : Response := {| status := 200; body := "<!doctype html>" |}.

Definition online : Network := fun _ => NetResponse page_200.
Definition offline : Network := fun _ => NetError.

(** A network on which one URL cannot be reached. *)
Definition all_but (down : string) : Network :=
  fun q => if String.eqb (url q) down then NetError else NetResponse page_200.

Definition site : string := "https://colegiospro.example".

(** The URL parser for the manifests of the two scripts, whose entries are
    paths from the root of the site or absolute URLs. *)
Definition at_site (u : string) : option string :=
  Some (if String.prefix "/" u then site ++ u else u).

Definition env_online : Env :=
  {| net := online; origin := site; resolve_url := at_site; windowClients := [] |}.
Definition env_offline : Env :=
  {| net := offline; origin := site; resolve_url := at_site; windowClients := [] |}.
Definition env_demo_down : Env :=
  {| net := all_but (site ++ "/demo"); origin := site; resolve_url := at_site;
     windowClients := [] |}.
Definition env_index_down : Env :=
  {| net := all_but (site ++ "/index.html"); origin := site; resolve_url := at_site;
     windowClients := [] |}.

(** Push messages: a JSON object, given with its text, and a body that is
    not JSON. *)
Definition dquote : string := String (Ascii.ascii_of_nat 34) EmptyString.
Definition quoted (s : string) : string := dquote ++ s ++ dquote.

Definition push_chat : PushMessageData :=
  {| text := "{" ++ quoted "title" ++ ":" ++ quoted "T" ++ ","
                 ++ quoted "body" ++ ":" ++ quoted "B" ++ ","
                 ++ quoted "url" ++ ":" ++ quoted "/chat" ++ "}";
     json := Fulfilled (JS.Obj [ ("title", JS.Str "T"); ("body", JS.Str "B");
                                 ("url", JS.Str "/chat") ]) |}.

Definition push_empty_title : PushMessageData :=
  {| text := "{" ++ quoted "title" ++ ":" ++ quoted "" ++ "}";
     json := Fulfilled (JS.Obj [ ("title", JS.Str "") ]) |}.

Definition push_hello : PushMessageData :=
  {| text := "hello"; json := Rejected JS.SyntaxError |}.

(** One open tab of the site, and a click on a notification whose data
    envelope has an empty chat message. *)
Definition tab : Client := {| client_id := 1; client_url := site ++ "/demo" |}.
Definition env_tab : Env :=
  {| net := online; origin := site; resolve_url := at_site; windowClients := [tab] |}.

Definition envelope_chat : JS.Value :=
  JS.Obj [ ("url", JS.Str "/chat"); ("chatMessage", JS.Str "hola") ].
Definition envelope_empty_chat : JS.Value :=
  JS.Obj [ ("url", JS.Str "/chat"); ("chatMessage", JS.Str "") ].

Definition skip_waiting_message : JS.Value := JS.Obj [ ("type", JS.Str "SKIP_WAITING") ].

Definition ws_request : Request := {| method := "GET"; url := site ++ "/ws/chat" |}.

(** A deployment that still has the bucket of an older version, and a
    session of events on it. *)
Definition upgraded_world : World :=
  {| caches := [ ("colegiospro-v0", {[ site ++ "/" := page_200 ]}); ("colegiospro-v1", ∅) ];
     worker := Installing; skip_waiting_flag := false; effects := [] |}.

Definition session : list (Env * Event) :=
  [ (env_demo_down, InstallEvent);
    (env_online, ActivateEvent);
    (env_online, FetchEvent {| method := "GET"; url := site ++ "/demo" |});
    (env_offline, FetchEvent {| method := "GET"; url := site ++ "/demo" |});
    (env_online, PushEvent (Some push_hello));
    (env_tab, NotificationClickEvent JS.Null);
    (env_online, MessageEvent skip_waiting_message) ].

(** Further scenarios: a missing page, a bucket left by an older version
    that was created before the current one, and an empty Cache Storage
    that already has the bucket of the application worker. *)
Definition page_404 : Response := {| status := 404; body := "Not Found" |}.
Definition page_old : Response := {| status := 200; body := "<!-- v0 -->" |}.

Definition not_found : Network := fun _ => NetResponse page_404.
Definition env_not_found : Env :=
  {| net := not_found; origin := site; resolve_url := at_site; windowClients := [] |}.

Definition demo_request : Request := {| method := "GET"; url := site ++ "/demo" |}.
Definition post_request : Request := {| method := "POST"; url := site ++ "/api/chat" |}.

Definition stale_world : World :=
  {| caches := [ ("colegiospro-v0", {[ site ++ "/demo" := page_old ]}) ];
     worker := Activated; skip_waiting_flag := true; effects := [] |}.

(** A JSON value that is neither an object nor [null]: a boolean, a number,
    a string or an array. *)
Definition not_an_object (v : JS.Value) : Prop :=
  match v with
  | JS.Bool _ | JS.Num _ | JS.Str _ | JS.Arr _ => True
  | _ => False
  end.

(** Push messages whose body is the JSON text [null], and the JSON string
    ["hello"] (with its quotes). *)
Definition push_null : PushMessageData :=
  {| text := "null"; json := Fulfilled JS.Null |}.

Definition push_quoted_hello : PushMessageData :=
  {| text := quoted "hello"; json := Fulfilled (JS.Str "hello") |}.

Definition push_chat_message : PushMessageData :=
  {| text := "{" ++ quoted "chatMessage" ++ ":" ++ quoted "hola" ++ "}";
     json := Fulfilled (JS.Obj [ ("chatMessage", JS.Str "hola") ]) |}.

(** No entry of the bucket of the current version is stored under a URL
    that contains ["/ws/"]. *)
Definition no_ws_entry (cfg : Config) (cs : CacheStorage) : Prop :=
  forall b u, find_bucket (CACHE_NAME cfg) cs = Some b ->
              JS.includes u "/ws/" = true -> b !! u = None.




(** Whether a payload gives the field, when it gives it, as a string. *)
Definition string_field (props : list (string * JS.Value)) (k : string) : Prop :=
  match JS.assoc k props with
  | None | Some (JS.Str _) => True
  | Some _ => False
  end.

(** * Properties *)

(** ** Cache Storage *)

Section CacheStorageFacts.

Implicit Types (cs : CacheStorage) (w : World) (n k name : string).

Lemma with_caches_same w : with_caches (caches w) w = w.
Proof. by destruct w. Qed.

Lemma find_bucket_update_eq name f cs :
  find_bucket name (update_bucket name f cs) = f <$> find_bucket name cs.
Proof.
  induction cs as [|[m b] cs IH]; simpl; [done|].
  destruct (String.eqb m name) eqn:E; simpl; rewrite E; [done|apply IH].
Qed.

Lemma find_bucket_update_ne n name f cs :
  n <> name -> find_bucket n (update_bucket name f cs) = find_bucket n cs.
Proof.
  intros Hne. induction cs as [|[m b] cs IH]; simpl; [done|].
  destruct (String.eqb m name) eqn:E; simpl.
  - apply String.eqb_eq in E. subst m.
    destruct (String.eqb name n) eqn:E'; [|done].
    apply String.eqb_eq in E'. congruence.
  - by rewrite IH.
Qed.

Lemma find_bucket_snoc n name b cs :
  find_bucket n (cs ++ [(name, b)])%list =
  match find_bucket n cs with
  | Some x => Some x
  | None => if String.eqb name n then Some b else None
  end.
Proof.
  induction cs as [|[m c] cs IH]; simpl; [done|].
  by destruct (String.eqb m n).
Qed.

Lemma find_bucket_delete n k cs :
  find_bucket n (delete_bucket k cs) =
  if String.eqb n k then None else find_bucket n cs.
Proof.
  induction cs as [|[m b] cs IH]; simpl.
  - by destruct (String.eqb n k).
  - destruct (String.eqb m k) eqn:Ek; simpl.
    + rewrite IH. destruct (String.eqb n k) eqn:En; [done|].
      destruct (String.eqb m n) eqn:Em; [|done].
      apply String.eqb_eq in Ek, Em. subst.
      by rewrite String.eqb_refl in En.
    + destruct (String.eqb m n) eqn:Em.
      * apply String.eqb_eq in Em. subst m. by rewrite Ek.
      * apply IH.
Qed.

Lemma bucket_names_delete n k cs :
  In n (bucket_names (delete_bucket k cs)) <-> In n (bucket_names cs) /\ n <> k.
Proof.
  unfold bucket_names, delete_bucket. rewrite !in_map_iff. split.
  - intros [[m b] [<- Hin]]. apply filter_In in Hin as [Hin Hk]. simpl in *.
    split; [exists (m, b); by split|].
    intros ->. by rewrite String.eqb_refl in Hk.
  - intros [[[m b] [<- Hin]] Hne]. exists (m, b). split; [done|].
    apply filter_In. split; [done|]. simpl in *.
    destruct (String.eqb m k) eqn:E; [|done].
    apply String.eqb_eq in E. congruence.
Qed.

Lemma find_bucket_names n cs :
  In n (bucket_names cs) <-> is_Some (find_bucket n cs).
Proof.
  induction cs as [|[m b] cs IH]; simpl.
  - split; [done|]. by intros [? ?].
  - destruct (String.eqb m n) eqn:E.
    + apply String.eqb_eq in E. split; [by eexists|by left].
    + rewrite <- IH. split; [|by right].
      intros [->|H]; [|done]. by rewrite String.eqb_refl in E.
Qed.

(** Deleting a list of buckets, one [caches.delete] per name. *)
Lemma promise_all_delete ks w :
  exists bs,
    promise_all caches_delete ks w =
    (Fulfilled bs, with_caches (fold_left (fun cs k => delete_bucket k cs) ks (caches w)) w).
Proof.
  revert w. induction ks as [|k ks IH]; intros w; simpl.
  - exists []. unfold resolve. by rewrite with_caches_same.
  - unfold then_ at 1. simpl.
    destruct (IH (with_caches (delete_bucket k (caches w)) w)) as [bs Hbs].
    unfold then_ at 1. rewrite Hbs. eexists. unfold resolve. by destruct w.
Qed.

Lemma bucket_names_delete_all n ks cs :
  In n (bucket_names (fold_left (fun cs k => delete_bucket k cs) ks cs)) <->
  In n (bucket_names cs) /\ ~ In n ks.
Proof.
  revert cs. induction ks as [|k ks IH]; intros cs; simpl.
  - tauto.
  - rewrite IH, bucket_names_delete. split.
    + intros [[? ?] ?]. split; [done|]. intros [->|?]; done.
    + intros [? Hn]. split; [split|]; [done| |tauto]. intros ->. apply Hn. by left.
Qed.

Lemma find_bucket_delete_all n ks cs :
  find_bucket n (fold_left (fun cs k => delete_bucket k cs) ks cs) =
  if existsb (String.eqb n) ks then None else find_bucket n cs.
Proof.
  revert cs. induction ks as [|k ks IH]; intros cs; simpl; [done|].
  rewrite IH, find_bucket_delete.
  destruct (String.eqb n k); simpl; [|done].
  by destruct (existsb (String.eqb n) ks).
Qed.

End CacheStorageFacts.

(** ** Activation *)

Lemma app_activate_landing cfg : App.activate cfg = Landing.activate cfg.
Proof. reflexivity. Qed.

Lemma activate_runs cfg env w :
  Landing.activate cfg env w =
  (Fulfilled tt,
   with_caches
     (fold_left (fun cs k => delete_bucket k cs) (stale_names cfg (caches w)) (caches w))
     (emit ClientsClaim w)).
Proof.
  unfold Landing.activate, waitUntil_then, clients_claim, perform. simpl.
  unfold then_ at 1. unfold caches_keys at 1. simpl.
  unfold then_ at 1.
  destruct (promise_all_delete (stale_names cfg (caches w)) (emit ClientsClaim w))
    as [bs Hbs].
  unfold stale_names in *. simpl in Hbs. rewrite Hbs. reflexivity.
Qed.

Lemma in_stale_names cfg cs n :
  In n (stale_names cfg cs) <-> In n (bucket_names cs) /\ n <> CACHE_NAME cfg.
Proof.
  unfold stale_names. rewrite filter_In. split; intros [H1 H2]; split; try done.
  - intros ->. by rewrite String.eqb_refl in H2.
  - destruct (String.eqb n (CACHE_NAME cfg)) eqn:E; [|done].
    apply String.eqb_eq in E. congruence.
Qed.

Lemma stale_names_existsb cfg cs n :
  existsb (String.eqb n) (stale_names cfg cs) = true ->
  n <> CACHE_NAME cfg.
Proof.
  rewrite existsb_exists. intros [k [Hk E]]. apply String.eqb_eq in E. subst k.
  by apply in_stale_names in Hk as [_ ?].
Qed.

Lemma activate_caches cfg env w n :
  let w' := snd (Landing.activate cfg env w) in
  (In n (bucket_names (caches w')) -> n = CACHE_NAME cfg) /\
  (n <> CACHE_NAME cfg -> find_bucket n (caches w') = None) /\
  find_bucket (CACHE_NAME cfg) (caches w') = find_bucket (CACHE_NAME cfg) (caches w).
Proof.
  rewrite activate_runs. simpl. repeat split.
  - rewrite bucket_names_delete_all, in_stale_names. intros [Hin Hn].
    destruct (string_dec n (CACHE_NAME cfg)); tauto.
  - intros Hne. rewrite find_bucket_delete_all.
    destruct (existsb _ _) eqn:E; [done|].
    destruct (find_bucket n (caches w)) eqn:F; [|done].
    exfalso. assert (In n (stale_names cfg (caches w))) as Hin.
    { apply in_stale_names. split; [|done]. apply find_bucket_names. by eexists. }
    assert (existsb (String.eqb n) (stale_names cfg (caches w)) = true); [|congruence].
    apply existsb_exists. exists n. split; [done|apply String.eqb_refl].
  - rewrite find_bucket_delete_all.
    destruct (existsb _ _) eqn:E; [|done].
    by apply stale_names_existsb in E.
Qed.

(** C3. On activation every cache bucket whose name differs from the
    current version string is deleted: in both scripts, after the activate
    event has settled (it always fulfils), every bucket name that
    [caches.keys()] still enumerates is [CACHE_NAME], a bucket of any other
    name is gone, and the bucket of the current version is as it was. *)
Theorem activate_deletes_stale_buckets (cfg : Config) (env : Env) (w : World) (n : string) :
  (let (o, w') := dispatch (App.worker cfg) env ActivateEvent w in
   o = Settles (Fulfilled tt) /\
   (In n (bucket_names (caches w')) -> n = CACHE_NAME cfg) /\
   (n <> CACHE_NAME cfg -> find_bucket n (caches w') = None) /\
   find_bucket (CACHE_NAME cfg) (caches w') = find_bucket (CACHE_NAME cfg) (caches w)) /\
  (let (o, w') := dispatch (Landing.worker cfg) env ActivateEvent w in
   o = Settles (Fulfilled tt) /\
   (In n (bucket_names (caches w')) -> n = CACHE_NAME cfg) /\
   (n <> CACHE_NAME cfg -> find_bucket n (caches w') = None) /\
   find_bucket (CACHE_NAME cfg) (caches w') = find_bucket (CACHE_NAME cfg) (caches w)).
Proof.
  pose proof (activate_caches cfg env w n) as H. simpl in H.
  simpl. rewrite app_activate_landing.
  destruct (Landing.activate cfg env w) as [s w'] eqn:E.
  rewrite activate_runs in E. injection E as <- <-.
  simpl in *. by repeat split; try apply H.
Qed.

(** ** Fetch interception *)



Lemma caches_open_bucket name w :
  fst (caches_open name w) = Fulfilled name /\
  is_Some (find_bucket name (caches (snd (caches_open name w)))) /\
  effects (snd (caches_open name w)) = effects w /\
  forall n, n <> name ->
    find_bucket n (caches (snd (caches_open name w))) = find_bucket n (caches w).
Proof.
  unfold caches_open. destruct (find_bucket name (caches w)) eqn:E; simpl.
  - split; [done|]. split; [by eexists|]. by split.
  - split; [done|]. split; [|split; [done|]].
    + rewrite find_bucket_snoc, E, String.eqb_refl. by eexists.
    + intros n Hn. rewrite find_bucket_snoc.
      destruct (find_bucket n (caches w)); [done|].
      destruct (String.eqb name n) eqn:E'; [|done].
      apply String.eqb_eq in E'. congruence.
Qed.

Lemma app_fetch_some cfg env request p :
  App.fetch cfg env request = Some p -> Landing.fetch cfg env request = Some p.
Proof.
  unfold App.fetch, Landing.fetch.
  destruct (negb (String.eqb (method request) "GET")); [done|].
  by destruct (JS.includes (url request) "/ws/").
Qed.

Lemma landing_fetch_some cfg env request p :
  Landing.fetch cfg env request = Some p ->
  method request = "GET" /\
  forall w,
    p w =
    match net env request with
    | NetResponse r =>
        (Fulfilled (Some r),
         if ok r
         then snd (cache_put (CACHE_NAME cfg) request r
                     (snd (caches_open (CACHE_NAME cfg) w)))
         else w)
    | NetError => (Fulfilled (storage_match request (caches w)), w)
    end.
Proof.
  unfold Landing.fetch.
  destruct (String.eqb (method request) "GET") eqn:EG; simpl; [|done].
  intros [= <-]. split; [by apply String.eqb_eq|]. intros w.
  cbv [catch_ then_ Platform.fetch detach resolve caches_match].
  destruct (net env request) as [|r]; [done|].
  destruct (ok r); [|done]. simpl.
  destruct (caches_open_bucket (CACHE_NAME cfg) w) as (Hf & _).
  destruct (caches_open (CACHE_NAME cfg) w) as [s w1]. simpl in *. by subst s.
Qed.


(** What an intercepted fetch does, by the answer of the network. *)
Lemma dispatch_fetch_intercepted cfg sw env request w :
  sw = App.worker cfg \/ sw = Landing.worker cfg ->
  is_Some (on_fetch sw env request) ->
  method request = "GET" /\
  dispatch sw env (FetchEvent request) w =
  match net env request with
  | NetResponse r =>
      (Responds (Fulfilled (Some r)),
       if ok r
       then snd (cache_put (CACHE_NAME cfg) request r
                   (snd (caches_open (CACHE_NAME cfg) w)))
       else w)
  | NetError => (Responds (Fulfilled (storage_match request (caches w))), w)
  end.
Proof.
  intros Hsw [p Hp].
  assert (Landing.fetch cfg env request = Some p) as HL.
  { destruct Hsw as [-> | ->]; simpl in Hp; [by apply app_fetch_some|done]. }
  destruct (landing_fetch_some _ _ _ _ HL) as [HG Hrun]. split; [done|].
  simpl. rewrite Hp, (Hrun w). by destruct (net env request).
Qed.


Lemma put_refused cfg request r w :
  http_scheme (url request) = false \/ status r = 206 ->
  snd (cache_put (CACHE_NAME cfg) request r w) = w.
Proof.
  intros H. unfold cache_put, partial_content.
  destruct H as [-> | ->]; [done|]. simpl. by rewrite andb_false_r.
Qed.

Lemma put_cases cfg request r w :
  snd (cache_put (CACHE_NAME cfg) request r w) = w \/
  snd (cache_put (CACHE_NAME cfg) request r w) =
  with_caches
    (update_bucket (CACHE_NAME cfg) (fun b => <[cache_key request := r]> b) (caches w)) w.
Proof. unfold cache_put. destruct (_ && _); [by right|by left]. Qed.





(** A response that is not ok is handed to the page and not stored. *)
Lemma fetch_not_ok_not_stored cfg sw env request r w :
  sw = App.worker cfg \/ sw = Landing.worker cfg ->
  is_Some (on_fetch sw env request) ->
  net env request = NetResponse r -> ok r = false ->
  dispatch sw env (FetchEvent request) w = (Responds (Fulfilled (Some r)), w).
Proof.
  intros Hsw Hi Hr Hok.
  destruct (dispatch_fetch_intercepted cfg sw env request w Hsw Hi) as [_ ->].
  by rewrite Hr, Hok.
Qed.

(** ** Installation *)

Section InstallFacts.

Implicit Types (cs : CacheStorage) (rs : list (Request * Response)).

Lemma find_bucket_put_all name rs cs :
  find_bucket name (put_all name rs cs) =
  (fun b => fold_left (fun acc qr => <[cache_key (fst qr) := snd qr]> acc) rs b)
    <$> find_bucket name cs.
Proof.
  unfold put_all. revert cs. induction rs as [|qr rs IH]; intros cs; simpl.
  - by destruct (find_bucket name cs).
  - rewrite IH, find_bucket_update_eq. by destruct (find_bucket name cs).
Qed.

Lemma find_bucket_put_all_ne n name rs cs :
  n <> name -> find_bucket n (put_all name rs cs) = find_bucket n cs.
Proof.
  intros Hne. unfold put_all. revert cs.
  induction rs as [|qr rs IH]; intros cs; simpl; [done|].
  by rewrite IH, find_bucket_update_ne.
Qed.

Lemma fold_insert_lookup rs (b : Bucket) (k : string) :
  fold_left (fun acc qr => <[cache_key (fst qr) := snd qr]> acc) rs b !! k = b !! k \/
  exists q r, In (q, r) rs /\ cache_key q = k /\
    fold_left (fun acc qr => <[cache_key (fst qr) := snd qr]> acc) rs b !! k = Some r.
Proof.
  revert b. induction rs as [|[q r] rs IH]; intros b; simpl; [by left|].
  destruct (IH (<[cache_key q := r]> b)) as [H | (q' & r' & Hin & Hu & H)].
  - rewrite H. destruct (decide (cache_key q = k)) as [E|E].
    + right. exists q, r. split; [by left|]. split; [done|].
      subst k. apply lookup_insert_eq.
    + left. by apply lookup_insert_ne.
  - right. exists q', r'. by split; [right|].
Qed.



End InstallFacts.

(** *** What a batch gathers *)

Lemma asset_pair_some env a q r :
  asset_pair env a = Some (q, r) <->
  exists u, resolve_url env a = Some u /\ http_scheme u = true /\ q = request_of u /\
            net env q = NetResponse r /\ ok r = true /\ status r <> 206.
Proof.
  unfold asset_pair, partial_content. split.
  - destruct (resolve_url env a) as [u|]; [|done].
    destruct (http_scheme u) eqn:Hh; [|done].
    destruct (net env (request_of u)) as [|r0] eqn:Hn; [done|].
    destruct (ok r0) eqn:Hok; [|done]. simpl.
    destruct (status r0 =? 206) eqn:Hs; [done|]. simpl.
    intros [= <- <-]. exists u. apply Z.eqb_neq in Hs. by repeat split.
  - intros (u & -> & -> & -> & -> & -> & Hs). apply Z.eqb_neq in Hs. by rewrite Hs.
Qed.



Lemma mapM_cons_option {A B} (f : A -> option B) (a : A) (l : list A) :
  mapM f (a :: l) =
  match f a with
  | Some y => match mapM f l with Some k => Some (y :: k) | None => None end
  | None => None
  end.
Proof. simpl. destruct (f a); [|done]. simpl. by destruct (mapM f l). Qed.

(** The two passes of [addAll], requests then responses, as one. *)
Lemma collect_pairs env urls :
  match requests_of (resolve_url env) urls with
  | Rejected e => Rejected e
  | Fulfilled reqs =>
      match fetch_all (net env) reqs with
      | Rejected e => Rejected e
      | Fulfilled rs => Fulfilled (reqs, rs)
      end
  end =
  match mapM (asset_pair env) urls with
  | Some rs => Fulfilled (map fst rs, rs)
  | None => Rejected JS.TypeError
  end.
Proof.
  induction urls as [|a urls IH]; [done|].
  rewrite mapM_cons_option. cbn [requests_of]. unfold asset_pair at 1.
  destruct (resolve_url env a) as [u|]; [|done].
  destruct (http_scheme u); [|done].
  destruct (requests_of (resolve_url env) urls) as [qs|e].
  - cbn [fetch_all].
    destruct (net env (request_of u)) as [|r]; [done|].
    destruct (ok r && negb (partial_content r)); [|done].
    destruct (fetch_all (net env) qs) as [rs|e];
      destruct (mapM (asset_pair env) urls) as [rs'|]; simpl in *; congruence.
  - destruct (mapM (asset_pair env) urls) as [rs'|]; [done|].
    injection IH as ->.
    destruct (net env (request_of u)) as [|r]; [done|].
    by destruct (ok r && negb (partial_content r)).
Qed.

Lemma gather_pairs env urls :
  gather (net env) (resolve_url env) urls =
  match mapM (asset_pair env) urls with
  | Some rs =>
      if distinct (map (fun qr => cache_key (fst qr)) rs) then Fulfilled rs
      else Rejected JS.InvalidStateError
  | None => Rejected JS.TypeError
  end.
Proof.
  unfold gather. pose proof (collect_pairs env urls) as H.
  destruct (requests_of (resolve_url env) urls) as [qs|e].
  - destruct (fetch_all (net env) qs) as [rs|e];
      destruct (mapM (asset_pair env) urls) as [rs'|]; try done.
    + injection H as -> ->. by rewrite map_map.
    + by injection H as ->.
  - destruct (mapM (asset_pair env) urls) as [rs'|]; [done|]. by injection H as ->.
Qed.

Lemma pairs_keys env urls rs :
  mapM (asset_pair env) urls = Some rs ->
  map (fun qr => cache_key (fst qr)) rs =
  map (fun a => match resolve_url env a with
                | Some u => strip_fragment u
                | None => ""
                end) urls.
Proof.
  intros H. apply mapM_Some in H.
  induction H as [|a [q r] urls rs Ha _ IH]; [done|].
  simpl. rewrite IH. apply asset_pair_some in Ha as (u & -> & _ & -> & _). done.
Qed.


Lemma asset_of_pair env urls rs q r :
  mapM (asset_pair env) urls = Some rs -> In (q, r) rs ->
  exists a, In a urls /\ asset_pair env a = Some (q, r).
Proof.
  intros H. apply mapM_Some in H.
  induction H as [|a0 [q0 r0] urls rs Ha _ IH]; [done|].
  intros [[= <- <-]|Hin].
  - exists a0. split; [by left|done].
  - destruct (IH Hin) as (a & Ha' & Hp). exists a. by split; [right|].
Qed.



(** *** The install listeners *)

Lemma app_install_runs cfg env w :
  App.install cfg env w =
  match gather (net env) (resolve_url env) (ASSETS cfg) with
  | Fulfilled rs =>
      (Fulfilled tt,
       with_caches (put_all (CACHE_NAME cfg) rs (caches (install_opened cfg w)))
         (install_opened cfg w))
  | Rejected e =>
      (Fulfilled tt, emit (ConsoleLog "Cache addAll failed:" e) (install_opened cfg w))
  end.
Proof.
  unfold App.install, waitUntil_then, install_opened, catch_, then_, cache_addAll.
  destruct (caches_open_bucket (CACHE_NAME cfg) (snd (skipWaiting w))) as (Hf & _).
  destruct (caches_open (CACHE_NAME cfg) (snd (skipWaiting w))) as [s w1].
  simpl in *. subst s.
  by destruct (gather (net env) (resolve_url env) (ASSETS cfg)).
Qed.

Lemma landing_install_runs cfg env w :
  Landing.install cfg env w =
  match gather (net env) (resolve_url env) (ASSETS cfg) with
  | Fulfilled rs =>
      (Fulfilled tt,
       with_caches (put_all (CACHE_NAME cfg) rs (caches (install_opened cfg w)))
         (install_opened cfg w))
  | Rejected e => (Rejected e, install_opened cfg w)
  end.
Proof.
  unfold Landing.install, waitUntil_then, install_opened, then_, cache_addAll.
  destruct (caches_open_bucket (CACHE_NAME cfg) (snd (skipWaiting w))) as (Hf & _).
  destruct (caches_open (CACHE_NAME cfg) (snd (skipWaiting w))) as [s w1].
  simpl in *. subst s.
  by destruct (gather (net env) (resolve_url env) (ASSETS cfg)).
Qed.

Lemma install_opened_bucket cfg w :
  is_Some (find_bucket (CACHE_NAME cfg) (caches (install_opened cfg w))).
Proof. unfold install_opened. apply caches_open_bucket. Qed.

Lemma install_opened_effects cfg w :
  effects (install_opened cfg w) = (effects w ++ [SkipWaiting])%list.
Proof.
  unfold install_opened.
  destruct (caches_open_bucket (CACHE_NAME cfg) (snd (skipWaiting w))) as (_ & _ & -> & _).
  done.
Qed.


Lemma install_opened_caches cfg w :
  caches (install_opened cfg w) = caches (snd (caches_open (CACHE_NAME cfg) w)).
Proof.
  unfold install_opened, caches_open, skipWaiting. simpl.
  by destruct (find_bucket (CACHE_NAME cfg) (caches w)).
Qed.





(** ** Push *)

Lemma or_default_assoc props k dflt :
  JS.or (match JS.assoc k props with Some x => x | None => JS.Undefined end) dflt =
  or_default (JS.assoc k props) dflt.
Proof. unfold JS.or, or_default. by destruct (JS.assoc k props). Qed.

Lemma app_push_try_landing cfg : App.push_try cfg = Landing.push_try cfg.
Proof. reflexivity. Qed.

Lemma app_push_data_landing cfg : App.push_data cfg = Landing.push_data cfg.
Proof. reflexivity. Qed.

(** The [data] of the listener when the payload is a JSON object. *)
Lemma push_data_object cfg d props :
  json d = Fulfilled (JS.Obj props) ->
  Landing.push_data cfg (Some d) =
  {| d_title := or_default (JS.assoc "title" props) default_title;
     d_body := or_default (JS.assoc "body" props) default_body;
     d_icon := or_default (JS.assoc "icon" props) (JS.Str (ICON cfg));
     d_badge := JS.Str (BADGE cfg);
     d_vibrate := vibrate_pattern;
     d_data := envelope props;
     d_actions := notification_actions |}.
Proof.
  intros Hj. unfold Landing.push_data, Landing.push_try. rewrite Hj. simpl.
  unfold envelope. by rewrite !or_default_assoc.
Qed.

(** The [data] of the listener when nothing is assigned in the [try]
    block: no event data, a body that is not JSON, or the JSON [null]. *)
Lemma push_data_absent cfg : Landing.push_data cfg None = Landing.push_default cfg.
Proof. reflexivity. Qed.

Lemma push_data_unparsed cfg d e :
  json d = Rejected e ->
  Landing.push_data cfg (Some d) = set_body (JS.Str (text d)) (Landing.push_default cfg).
Proof. intros Hj. unfold Landing.push_data, Landing.push_try. by rewrite Hj. Qed.

Lemma push_data_null cfg d :
  json d = Fulfilled JS.Null ->
  Landing.push_data cfg (Some d) = set_body (JS.Str (text d)) (Landing.push_default cfg).
Proof. intros Hj. unfold Landing.push_data, Landing.push_try. by rewrite Hj. Qed.

Lemma or_default_absent props k dflt :
  JS.assoc k props = None -> or_default (JS.assoc k props) dflt = dflt.
Proof. by intros ->. Qed.

(** C4, as amended. For a push event whose body parses as a JSON object,
    both scripts show one notification in which each of title, body, icon
    and the url of the data envelope is the payload's field when the field
    is present and truthy, and the hard-coded default (["ColegiosPro"],
    ["Tiene un nuevo mensaje"], the icon path, ["/"]) when the field is
    absent or falsy. In particular the payload with title "T", body "B" and
    url "/chat" is shown with title "T", body "B" and a data envelope whose
    url is "/chat". *)
Theorem push_fields_or_defaults (cfg : Config) (sw : ServiceWorker) (env : Env)
    (d : PushMessageData) (props : list (string * JS.Value)) (w : World) :
  sw = App.worker cfg \/ sw = Landing.worker cfg ->
  json d = Fulfilled (JS.Obj props) ->
  exists options,
    dispatch sw env (PushEvent (Some d)) w =
    (Settles (Fulfilled tt),
     emit (ShowNotification (or_default (JS.assoc "title" props) default_title) options) w)
    /\ opt_body options = or_default (JS.assoc "body" props) default_body
    /\ opt_icon options = or_default (JS.assoc "icon" props) (JS.Str (ICON cfg))
    /\ JS.get_opt (notification_data options) "url"
       = or_default (JS.assoc "url" props) (JS.Str "/")
    /\ (props = [ ("title", JS.Str "T"); ("body", JS.Str "B"); ("url", JS.Str "/chat") ] ->
        or_default (JS.assoc "title" props) default_title = JS.Str "T" /\
        opt_body options = JS.Str "B" /\
        JS.get_opt (notification_data options) "url" = JS.Str "/chat").
Proof.
  intros Hsw Hj.
  destruct Hsw as [-> | ->]; simpl.
  - unfold App.push, perform. rewrite app_push_data_landing, (push_data_object _ _ _ Hj).
    simpl. eexists. split; [reflexivity|]. simpl.
    do 3 (split; [done|]). by intros ->.
  - unfold Landing.push, perform. rewrite (push_data_object _ _ _ Hj).
    simpl. eexists. split; [reflexivity|]. simpl.
    do 3 (split; [done|]). by intros ->.
Qed.

Lemma push_fields_or_defaults_witness :
  json push_chat
  = Fulfilled (JS.Obj [ ("title", JS.Str "T"); ("body", JS.Str "B"); ("url", JS.Str "/chat") ]) /\
  exists options,
    dispatch (App.worker App.config) env_online (PushEvent (Some push_chat)) fresh_world =
    (Settles (Fulfilled tt), emit (ShowNotification (JS.Str "T") options) fresh_world)
    /\ opt_body options = JS.Str "B"
    /\ JS.get_opt (notification_data options) "url" = JS.Str "/chat".
Proof.
  split; [reflexivity|].
  destruct (push_fields_or_defaults App.config (App.worker App.config) env_online
              push_chat _ fresh_world (or_introl eq_refl) eq_refl)
    as (options & Hrun & _ & _ & _ & Hex).
  destruct (Hex eq_refl) as (_ & Hbody & Hurl).
  exists options. split; [exact Hrun|]. split; [exact Hbody|exact Hurl].
Defined.

(** C4, as stated, fails. The payload whose title is the empty string has
    a title, and the notification is shown with the default title: a field
    falls back to its default also when it is present and falsy. *)
Lemma push_present_title_falls_back :
  json push_empty_title = Fulfilled (JS.Obj [ ("title", JS.Str "") ]) /\
  JS.has (JS.Obj [ ("title", JS.Str "") ]) "title" = true /\
  (exists options,
     dispatch (App.worker App.config) env_online (PushEvent (Some push_empty_title)) fresh_world
     = (Settles (Fulfilled tt),
        emit (ShowNotification (JS.Str "ColegiosPro") options) fresh_world)) /\
  (exists options,
     dispatch (Landing.worker Landing.config) env_online (PushEvent (Some push_empty_title))
       fresh_world
     = (Settles (Fulfilled tt),
        emit (ShowNotification (JS.Str "ColegiosPro") options) fresh_world)).
Proof. repeat split; by eexists. Qed.

(** C5. A push body that is not JSON does not drop the notification: in
    both scripts, when [json()] throws, exactly one notification is shown,
    its title is the default ["ColegiosPro"] and its body is the text of
    the message. *)
Theorem push_unparsed_shows_text (cfg : Config) (sw : ServiceWorker) (env : Env)
    (d : PushMessageData) (e : JS.Error) (w : World) :
  sw = App.worker cfg \/ sw = Landing.worker cfg ->
  json d = Rejected e ->
  exists options,
    dispatch sw env (PushEvent (Some d)) w =
    (Settles (Fulfilled tt), emit (ShowNotification (JS.Str "ColegiosPro") options) w)
    /\ opt_body options = JS.Str (text d).
Proof.
  intros Hsw Hj. destruct Hsw as [-> | ->]; simpl.
  - unfold App.push, perform. rewrite app_push_data_landing, (push_data_unparsed _ _ _ Hj).
    simpl. by eexists.
  - unfold Landing.push, perform. rewrite (push_data_unparsed _ _ _ Hj).
    simpl. by eexists.
Qed.

Lemma push_unparsed_shows_text_witness :
  json push_hello = Rejected JS.SyntaxError /\
  exists options,
    dispatch (Landing.worker Landing.config) env_online (PushEvent (Some push_hello)) fresh_world
    = (Settles (Fulfilled tt), emit (ShowNotification (JS.Str "ColegiosPro") options) fresh_world)
    /\ opt_body options = JS.Str "hello".
Proof.
  split; [reflexivity|].
  exact (push_unparsed_shows_text Landing.config (Landing.worker Landing.config) env_online
           push_hello JS.SyntaxError fresh_world (or_intror eq_refl) eq_refl).
Defined.

(** ** Notification click *)

Lemma app_click_landing : App.notificationclick = Landing.notificationclick.
Proof. reflexivity. Qed.

Lemma click_loop_runs env data target clients w :
  Landing.click_loop env data target clients w =
  (Fulfilled tt,
   match List.find (fun c => JS.includes (client_url c) (origin env)) clients with
   | Some c =>
       if JS.truthy (JS.get_opt data "chatMessage")
       then emit (ClientPostMessage c
                    (JS.Obj [ ("type", JS.Str "OPEN_CHAT");
                              ("message", JS.get_opt data "chatMessage") ]))
              (emit (ClientFocus c) w)
       else emit (ClientFocus c) w
   | None => emit (OpenWindow target) w
   end).
Proof.
  induction clients as [|c clients IH]; simpl; [done|].
  destruct (JS.includes (client_url c) (origin env)); [|apply IH].
  unfold then_, perform. simpl.
  destruct (JS.truthy (JS.get_opt data "chatMessage")) eqn:Ht; [|done].
  unfold JS.get_opt in *. destruct (JS.get data "chatMessage"); [done|].
  simpl in Ht. done.
Qed.

Lemma click_runs env data w :
  Landing.notificationclick env data w =
  (Fulfilled tt,
   match List.find (fun c => JS.includes (client_url c) (origin env)) (windowClients env) with
   | Some c =>
       if JS.truthy (JS.get_opt data "chatMessage")
       then emit (ClientPostMessage c
                    (JS.Obj [ ("type", JS.Str "OPEN_CHAT");
                              ("message", JS.get_opt data "chatMessage") ]))
              (emit (ClientFocus c) (emit NotificationClose w))
       else emit (ClientFocus c) (emit NotificationClose w)
   | None =>
       emit (OpenWindow (JS.or (JS.get_opt data "url") (JS.Str "/")))
         (emit NotificationClose w)
   end).
Proof.
  unfold Landing.notificationclick, then_ at 1, perform at 1.
  apply click_loop_runs.
Qed.

Lemma matching_client_some env c :
  matching_client env = Some c ->
  In c (windowClients env) /\ JS.includes (client_url c) (origin env) = true.
Proof. apply find_some. Qed.

Lemma matching_client_none env :
  matching_client env = None ->
  forall c, In c (windowClients env) -> JS.includes (client_url c) (origin env) = false.
Proof. apply find_none. Qed.

Lemma dispatch_click cfg sw env data w :
  sw = App.worker cfg \/ sw = Landing.worker cfg ->
  dispatch sw env (NotificationClickEvent data) w =
  (Settles (fst (Landing.notificationclick env data w)),
   snd (Landing.notificationclick env data w)).
Proof.
  intros [-> | ->]; unfold dispatch, App.worker, Landing.worker;
    cbn [on_notificationclick]; rewrite ?app_click_landing;
    by destruct (Landing.notificationclick env data w).
Qed.

(** In an envelope built by the push listener the chatMessage is [null] or
    truthy, and the url is truthy. *)
Lemma envelope_fields props :
  (JS.get_opt (envelope props) "chatMessage" = JS.Null \/
   JS.truthy (JS.get_opt (envelope props) "chatMessage") = true) /\
  JS.truthy (JS.get_opt (envelope props) "url") = true.
Proof.
  unfold envelope, JS.get_opt, or_default. simpl. split.
  - destruct (JS.assoc "chatMessage" props) as [v|]; [|by left].
    destruct (JS.truthy v) eqn:E; [by right|by left].
  - destruct (JS.assoc "url" props) as [v|]; [|done].
    by destruct (JS.truthy v) eqn:E.
Qed.

Lemma get_of_value payload k :
  payload <> JS.Null -> payload <> JS.Undefined ->
  JS.get payload k = Fulfilled (JS.get_opt payload k).
Proof. intros H1 H2. unfold JS.get_opt. by destruct payload. Qed.

Lemma push_data_value cfg d payload :
  json d = Fulfilled payload ->
  payload <> JS.Null -> payload <> JS.Undefined ->
  Landing.push_data cfg (Some d) =
  {| d_title := JS.or (JS.get_opt payload "title") default_title;
     d_body := JS.or (JS.get_opt payload "body") default_body;
     d_icon := JS.or (JS.get_opt payload "icon") (JS.Str (ICON cfg));
     d_badge := JS.Str (BADGE cfg);
     d_vibrate := vibrate_pattern;
     d_data := JS.Obj [ ("url", JS.or (JS.get_opt payload "url") (JS.Str "/"));
                        ("chatMessage", JS.or (JS.get_opt payload "chatMessage") JS.Null) ];
     d_actions := notification_actions |}.
Proof.
  intros Hj Hn Hu. unfold Landing.push_data, Landing.push_try. rewrite Hj. simpl.
  by rewrite !(get_of_value payload _ Hn Hu).
Qed.

Lemma push_data_nullish cfg d payload :
  json d = Fulfilled payload ->
  payload = JS.Null \/ payload = JS.Undefined ->
  Landing.push_data cfg (Some d) = set_body (JS.Str (text d)) (Landing.push_default cfg).
Proof.
  intros Hj [-> | ->]; unfold Landing.push_data, Landing.push_try; by rewrite Hj.
Qed.


Lemma dispatch_push cfg sw env event_data w :
  sw = App.worker cfg \/ sw = Landing.worker cfg ->
  exists badge,
    dispatch sw env (PushEvent event_data) w =
    (Settles (Fulfilled tt),
     emit (ShowNotification (d_title (Landing.push_data cfg event_data))
             {| opt_body := d_body (Landing.push_data cfg event_data);
                opt_icon := d_icon (Landing.push_data cfg event_data);
                opt_badge := badge;
                opt_vibrate := d_vibrate (Landing.push_data cfg event_data);
                opt_data := d_data (Landing.push_data cfg event_data);
                opt_actions := d_actions (Landing.push_data cfg event_data) |}) w).
Proof.
  intros [-> | ->]; unfold dispatch, App.worker, Landing.worker; cbn [on_push];
    unfold App.push, Landing.push, perform; rewrite ?app_push_data_landing;
    by eexists.
Qed.

Lemma or_default_truthy a dflt :
  JS.truthy dflt = true -> JS.truthy (JS.or a dflt) = true.
Proof. intros H. unfold JS.or. by destruct (JS.truthy a) eqn:E. Qed.

(** What the listener binds to [data], by what the push event carries. *)
Lemma push_data_cases cfg (event_data : option PushMessageData) :
  (Landing.push_data cfg event_data =
   set_body (fallback_body event_data) (Landing.push_default cfg)) \/
  (exists d payload,
     event_data = Some d /\ json d = Fulfilled payload /\
     payload <> JS.Null /\ payload <> JS.Undefined).
Proof.
  destruct event_data as [d|]; [|by left].
  destruct (json d) as [payload|e] eqn:Hj.
  - destruct payload eqn:Hp;
      try (right; exists d, payload; subst payload; by repeat split).
    + left. by rewrite (push_data_nullish cfg d _ Hj (or_intror eq_refl)).
    + left. by rewrite (push_data_nullish cfg d _ Hj (or_introl eq_refl)).
  - left. by rewrite (push_data_unparsed cfg d e Hj).
Qed.

Lemma click_effects cfg sw env data w :
  sw = App.worker cfg \/ sw = Landing.worker cfg ->
  effects (snd (dispatch sw env (NotificationClickEvent data) w)) =
  (effects w ++
   NotificationClose ::
   match matching_client env with
   | Some c =>
       ClientFocus c ::
       (if JS.truthy (JS.get_opt data "chatMessage")
        then [ClientPostMessage c (open_chat (JS.get_opt data "chatMessage"))]
        else [])
   | None => [OpenWindow (JS.or (JS.get_opt data "url") (JS.Str "/"))]
   end)%list.
Proof.
  intros Hsw. rewrite (dispatch_click cfg sw env data w Hsw), click_runs. simpl.
  fold (matching_client env). destruct (matching_client env) as [c|]; simpl.
  - destruct (JS.truthy (JS.get_opt data "chatMessage")); simpl;
      rewrite <- ?app_assoc; done.
  - by rewrite <- app_assoc.
Qed.

Lemma truthy_not_nullish v : JS.truthy v = true -> JS.nullish v = false.
Proof. by destruct v. Qed.

(** The data of a notification shown by the push listener: [null], or an
    envelope whose chatMessage is [null] or truthy and whose url is
    truthy. *)
Lemma shown_data_cases cfg event_data :
  let data := match d_data (Landing.push_data cfg event_data) with
              | JS.Undefined => JS.Null
              | v => v
              end in
  (data = JS.Null) \/
  (exists url chatMessage,
     data = JS.Obj [ ("url", url); ("chatMessage", chatMessage) ] /\
     JS.truthy url = true /\
     (chatMessage = JS.Null \/ JS.truthy chatMessage = true)).
Proof.
  destruct (push_data_cases cfg event_data) as [-> | (d & payload & -> & Hj & Hn & Hu)].
  - by left.
  - rewrite (push_data_value cfg d payload Hj Hn Hu). right. cbn [d_data].
    do 2 eexists. split; [reflexivity|]. split.
    + by apply or_default_truthy.
    + unfold JS.or. destruct (JS.truthy (JS.get_opt payload "chatMessage")) eqn:E;
        [by right|by left].
Qed.

(** C6. On every click on a notification that the worker has shown (the
    push listener makes the only [showNotification] call, for any push
    event), both scripts close the notification and then: when some window
    client has a URL that contains the origin of the worker, the first
    such client, and no other, is focused, it is posted exactly one
    [OPEN_CHAT] message carrying the chatMessage of the notification's
    data when the data carries one that is not null, and none otherwise,
    and no window is opened; when no client matches, exactly one window is
    opened, at the url of the notification's data, or at ["/"] when the
    data has none. *)
Theorem click_focuses_or_opens (cfg : Config) (sw : ServiceWorker)
    (env_push : Env) (event_data : option PushMessageData) (w_push : World)
    (env : Env) (w : World) :
  sw = App.worker cfg \/ sw = Landing.worker cfg ->
  exists title options,
    snd (dispatch sw env_push (PushEvent event_data) w_push) =
    emit (ShowNotification title options) w_push /\
    let data := notification_data options in
    let chatMessage := JS.get_opt data "chatMessage" in
    let (o, w') := dispatch sw env (NotificationClickEvent data) w in
    o = Settles (Fulfilled tt) /\
    (forall c, matching_client env = Some c ->
       In c (windowClients env) /\
       JS.includes (client_url c) (origin env) = true /\
       effects w' =
       (effects w ++
        NotificationClose :: ClientFocus c ::
        (if JS.nullish chatMessage then []
         else [ClientPostMessage c (open_chat chatMessage)]))%list) /\
    (matching_client env = None ->
       (forall c, In c (windowClients env) ->
          JS.includes (client_url c) (origin env) = false) /\
       effects w' =
       (effects w ++
        [NotificationClose;
         OpenWindow (if JS.has data "url" then JS.get_opt data "url" else JS.Str "/")])%list).
Proof.
  intros Hsw. destruct (dispatch_push cfg sw env_push event_data w_push Hsw) as [badge ->].
  do 2 eexists. split; [reflexivity|].
  unfold notification_data. cbn [opt_data]. cbv zeta.
  pose proof (click_effects cfg sw env
                match d_data (Landing.push_data cfg event_data) with
                | JS.Undefined => JS.Null
                | v => v
                end w Hsw) as Heff.
  rewrite (dispatch_click cfg sw env _ w Hsw) in Heff |- *. cbn [snd] in Heff.
  rewrite click_runs at 1. cbn [fst]. split; [done|].
  rewrite Heff. clear Heff.
  destruct (shown_data_cases cfg event_data) as [-> | (url & chat & -> & Hurl & Hchat)];
    simpl.
  - split.
    + intros c Hc. destruct (matching_client_some _ _ Hc) as [Hin Hm]. by rewrite Hc.
    + intros Hn. split; [by apply matching_client_none|]. by rewrite Hn.
  - change (JS.get_opt (JS.Obj [("url", url); ("chatMessage", chat)]) "chatMessage")
      with chat.
    change (JS.get_opt (JS.Obj [("url", url); ("chatMessage", chat)]) "url") with url.
    split.
    + intros c Hc. destruct (matching_client_some _ _ Hc) as [Hin Hm]. rewrite Hc.
      split; [done|]. split; [done|].
      destruct Hchat as [-> | Ht]; [done|].
      by rewrite Ht, (truthy_not_nullish _ Ht).
    + intros Hn. split; [by apply matching_client_none|]. rewrite Hn.
      unfold JS.or. by rewrite Hurl.
Qed.

Lemma click_focuses_or_opens_witness :
  exists title options,
    snd (dispatch (App.worker App.config) env_online (PushEvent (Some push_chat_message))
           fresh_world) =
    emit (ShowNotification title options) fresh_world /\
    let (o, w') :=
      dispatch (App.worker App.config) env_tab
        (NotificationClickEvent (notification_data options)) fresh_world in
    o = Settles (Fulfilled tt) /\
    effects w' =
    [ NotificationClose; ClientFocus tab; ClientPostMessage tab (open_chat (JS.Str "hola")) ].
Proof.
  destruct (click_focuses_or_opens App.config (App.worker App.config) env_online
              (Some push_chat_message) fresh_world env_tab fresh_world (or_introl eq_refl))
    as (title & options & Hpush & Hclick).
  exists title, options. split; [exact Hpush|].
  apply (f_equal effects) in Hpush. injection Hpush as _ <-. simpl in Hclick |- *.
  destruct Hclick as (Ho & Hsome & _). split; [exact Ho|].
  destruct (Hsome tab eq_refl) as (_ & _ & He). exact He.
Defined.

(** ** Push without a readable payload, and the click that follows *)

Lemma workers_differ cfg : App.worker cfg <> Landing.worker cfg.
Proof. intros H. apply (f_equal on_message) in H. discriminate. Qed.

Lemma push_data_fallback cfg event_data :
  (event_data = None \/ exists d e, event_data = Some d /\ json d = Rejected e) ->
  Landing.push_data cfg event_data =
  set_body (fallback_body event_data) (Landing.push_default cfg).
Proof.
  intros [-> | (d & e & -> & Hj)]; [done|].
  by rewrite (push_data_unparsed _ _ _ Hj).
Qed.

Lemma click_without_data env w :
  exists es,
    effects (snd (Landing.notificationclick env JS.Null w)) = (effects w ++ es)%list /\
    (forall c m, ~ In (ClientPostMessage c m) es) /\
    (forall t, In (OpenWindow t) es -> t = JS.Str "/") /\
    (matching_client env = None -> In (OpenWindow (JS.Str "/")) es).
Proof.
  rewrite click_runs. simpl. fold (matching_client env).
  destruct (matching_client env) as [c|]; simpl.
  - exists [NotificationClose; ClientFocus c]. rewrite <- app_assoc.
    split; [done|]. split; [|split]; [| |done].
    + intros c' m [H|[H|[]]]; discriminate.
    + intros t [H|[H|[]]]; discriminate.
  - exists [NotificationClose; OpenWindow (JS.Str "/")]. rewrite <- app_assoc.
    split; [done|]. split; [|split].
    + intros c' m [H|[H|[]]]; discriminate.
    + intros t [H|[[= <-]|[]]]; [discriminate|done].
    + intros _. right. by left.
Qed.

(** C10, as amended. When a push event has no data, or a body that is not
    JSON, the notification that both scripts show has the default title,
    the text of the message (or the default body) and the default icon, no
    data envelope, no actions and no vibration pattern; [src/static/sw.js]
    gives it no badge, the landing worker gives it the icon as badge. A
    later click on that notification, whatever the open windows, posts no
    message to any client, and the only window it can open is ["/"], which
    it opens when no client matches. *)
Theorem push_fallback_then_click (cfg : Config) (sw : ServiceWorker) (env : Env)
    (event_data : option PushMessageData) (w : World) :
  sw = App.worker cfg \/ sw = Landing.worker cfg ->
  (event_data = None \/ exists d e, event_data = Some d /\ json d = Rejected e) ->
  exists options,
    dispatch sw env (PushEvent event_data) w =
    (Settles (Fulfilled tt), emit (ShowNotification (JS.Str "ColegiosPro") options) w)
    /\ opt_body options = fallback_body event_data
    /\ opt_icon options = JS.Str (ICON cfg)
    /\ opt_data options = JS.Undefined
    /\ opt_actions options = JS.Undefined
    /\ opt_vibrate options = JS.Undefined
    /\ (sw = App.worker cfg -> opt_badge options = JS.Undefined)
    /\ (sw = Landing.worker cfg -> opt_badge options = JS.Str (ICON cfg))
    /\ forall env' w2,
         exists es,
           effects (snd (dispatch sw env' (NotificationClickEvent (notification_data options)) w2))
           = (effects w2 ++ es)%list /\
           (forall c m, ~ In (ClientPostMessage c m) es) /\
           (forall t, In (OpenWindow t) es -> t = JS.Str "/") /\
           (matching_client env' = None -> In (OpenWindow (JS.Str "/")) es).
Proof.
  intros Hsw Hd. pose proof (push_data_fallback cfg _ Hd) as Hdata.
  assert (forall options env' w2,
            opt_data options = JS.Undefined ->
            exists es,
              effects (snd (dispatch sw env'
                              (NotificationClickEvent (notification_data options)) w2))
              = (effects w2 ++ es)%list /\
              (forall c m, ~ In (ClientPostMessage c m) es) /\
              (forall t, In (OpenWindow t) es -> t = JS.Str "/") /\
              (matching_client env' = None -> In (OpenWindow (JS.Str "/")) es)) as Hclick.
  { intros options env' w2 Hnone. unfold notification_data. rewrite Hnone.
    rewrite (dispatch_click cfg sw env' JS.Null w2 Hsw). apply click_without_data. }
  destruct Hsw as [-> | ->].
  - eexists. split.
    { unfold dispatch, App.worker; cbn [on_push]. unfold App.push, perform.
      rewrite app_push_data_landing, Hdata. reflexivity. }
    do 6 (split; [done|]). split.
    { intros H. by destruct (workers_differ cfg). }
    intros env' w2. by apply Hclick.
  - eexists. split.
    { unfold dispatch, Landing.worker; cbn [on_push]. unfold Landing.push, perform.
      rewrite Hdata. reflexivity. }
    do 5 (split; [done|]). split.
    { intros H. symmetry in H. by destruct (workers_differ cfg). }
    split; [done|].
    intros env' w2. by apply Hclick.
Qed.

Lemma push_fallback_then_click_witness :
  (Some push_hello = None \/
   exists d e, Some push_hello = Some d /\ json d = Rejected e) /\
  exists options,
    dispatch (App.worker App.config) env_online (PushEvent (Some push_hello)) fresh_world =
    (Settles (Fulfilled tt), emit (ShowNotification (JS.Str "ColegiosPro") options) fresh_world)
    /\ opt_body options = JS.Str "hello"
    /\ opt_data options = JS.Undefined
    /\ opt_actions options = JS.Undefined
    /\ exists es,
         effects (snd (dispatch (App.worker App.config) env_tab
                         (NotificationClickEvent (notification_data options)) fresh_world))
         = ([] ++ es)%list /\
         (forall c m, ~ In (ClientPostMessage c m) es).
Proof.
  assert (Some push_hello = None \/
          exists d e, Some push_hello = Some d /\ json d = Rejected e) as Hd.
  { right. exists push_hello, JS.SyntaxError. split; reflexivity. }
  split; [exact Hd|].
  destruct (push_fallback_then_click App.config (App.worker App.config) env_online
              (Some push_hello) fresh_world (or_introl eq_refl) Hd)
    as (options & Hrun & Hb & _ & Hda & Ha & _ & _ & _ & Hclick).
  exists options. split; [exact Hrun|]. split; [exact Hb|].
  split; [exact Hda|]. split; [exact Ha|].
  destruct (Hclick env_tab fresh_world) as (es & He & Hno & _).
  exists es. split; [exact He|exact Hno].
Defined.

(** C10, as stated, fails. For a push event without data the landing
    worker shows a notification that carries, besides the default title,
    body and icon, a badge: the icon path. *)
Lemma push_fallback_has_badge :
  exists options,
    dispatch (Landing.worker Landing.config) env_online (PushEvent None) fresh_world =
    (Settles (Fulfilled tt), emit (ShowNotification (JS.Str "ColegiosPro") options) fresh_world)
    /\ opt_badge options = JS.Str "/icon-192.png"
    /\ opt_badge options <> JS.Undefined.
Proof. eexists. split; [reflexivity|]. by split. Qed.

(** ** Messages from the page *)

Lemma message_condition_true data :
  asks_skip_waiting data ->
  JS.truthy data && JS.strict_eq_str (JS.get_opt data "type") "SKIP_WAITING" = true.
Proof. intros (props & -> & Ht). unfold JS.get_opt. simpl. by rewrite Ht. Qed.

Lemma message_condition_false data :
  ~ asks_skip_waiting data ->
  JS.truthy data && JS.strict_eq_str (JS.get_opt data "type") "SKIP_WAITING" = false.
Proof.
  intros Hn. destruct (JS.truthy data && _) eqn:E; [|done].
  exfalso. apply Hn. apply andb_true_iff in E as [_ E].
  destruct data as [| | | | |?|props]; try done.
  exists props. split; [done|]. unfold JS.get_opt in E. simpl in E.
  destruct (JS.assoc "type" props) as [[| | | |s| |]|]; try done.
  simpl in E. apply String.eqb_eq in E. by subst s.
Qed.

(** C7, as amended. [src/static/sw.js] registers no message listener: a
    message, whatever its data, changes nothing. In the landing worker a
    message whose data is an object with [type: 'SKIP_WAITING'] calls
    [skipWaiting] at once, which sets the skip-waiting flag and takes a
    waiting worker out of the waiting state; a message with any other data
    leaves the state of the worker unchanged. *)
Theorem message_skip_waiting (cfg : Config) (env : Env) (data : JS.Value) (w : World) :
  dispatch (App.worker cfg) env (MessageEvent data) w = (NoListener, w) /\
  (asks_skip_waiting data ->
   let (o, w') := dispatch (Landing.worker cfg) env (MessageEvent data) w in
   o = Settles (Fulfilled tt) /\
   effects w' = (effects w ++ [SkipWaiting])%list /\
   skip_waiting_flag w' = true /\
   worker w' <> Installed /\
   (worker w = Installed -> worker w' = Activating) /\
   caches w' = caches w) /\
  (~ asks_skip_waiting data ->
   dispatch (Landing.worker cfg) env (MessageEvent data) w = (Settles (Fulfilled tt), w)).
Proof.
  split; [done|]. split.
  - intros H. simpl. unfold Landing.message. rewrite (message_condition_true _ H).
    simpl. repeat split; try done.
    + by destruct (worker w).
    + by intros ->.
  - intros H. simpl. unfold Landing.message. by rewrite (message_condition_false _ H).
Qed.

Lemma message_skip_waiting_witness :
  asks_skip_waiting skip_waiting_message /\
  let (o, w') :=
    dispatch (Landing.worker Landing.config) env_online (MessageEvent skip_waiting_message)
      waiting_world in
  o = Settles (Fulfilled tt) /\
  effects w' = [SkipWaiting] /\
  worker waiting_world = Installed /\
  worker w' = Activating.
Proof.
  assert (asks_skip_waiting skip_waiting_message) as Hs.
  { exists [ ("type", JS.Str "SKIP_WAITING") ]. split; reflexivity. }
  split; [exact Hs|].
  pose proof (message_skip_waiting Landing.config env_online skip_waiting_message
                waiting_world) as (_ & H & _).
  specialize (H Hs).
  destruct (dispatch (Landing.worker Landing.config) env_online
              (MessageEvent skip_waiting_message) waiting_world) as [o w'].
  destruct H as (Ho & He & _ & _ & Hw & _).
  split; [exact Ho|]. split; [exact He|]. split; [reflexivity|]. exact (Hw eq_refl).
Defined.

(** C7, as stated, fails. A waiting application worker that is sent
    [{type: 'SKIP_WAITING'}] has no listener for it: [skipWaiting] is not
    called and the worker is still waiting. *)
Lemma app_ignores_skip_waiting :
  asks_skip_waiting skip_waiting_message /\
  worker waiting_world = Installed /\
  (let (o, w') :=
     dispatch (App.worker App.config) env_online (MessageEvent skip_waiting_message)
       waiting_world in
   o = NoListener /\ effects w' = [] /\ skip_waiting_flag w' = false /\
   worker w' = Installed).
Proof.
  split; [|by repeat split].
  exists [ ("type", JS.Str "SKIP_WAITING") ]. by split.
Qed.

(** ** The two scripts side by side *)





(** ** The cache footprint of the listeners *)

Section Footprint.

Variable cfg : Config.
Variable sw : ServiceWorker.
Hypothesis Hsw : sw = App.worker cfg \/ sw = Landing.worker cfg.

Lemma install_caches env w :
  caches (snd (dispatch sw env InstallEvent w)) =
  match gather (net env) (resolve_url env) (ASSETS cfg) with
  | Fulfilled rs => put_all (CACHE_NAME cfg) rs (caches (install_opened cfg w))
  | Rejected _ => caches (install_opened cfg w)
  end.
Proof.
  destruct Hsw as [-> | ->]; unfold dispatch, App.worker, Landing.worker; cbn [on_install];
    [rewrite app_install_runs | rewrite landing_install_runs];
    by destruct (gather _ _ _).
Qed.

Lemma activate_world env w :
  snd (dispatch sw env ActivateEvent w) = snd (Landing.activate cfg env w).
Proof.
  destruct Hsw as [-> | ->]; unfold dispatch, App.worker, Landing.worker; cbn [on_activate];
    rewrite ?app_activate_landing; by destruct (Landing.activate cfg env w).
Qed.

Lemma fetch_caches env request w :
  caches (snd (dispatch sw env (FetchEvent request) w)) = caches w \/
  caches (snd (dispatch sw env (FetchEvent request) w)) =
  caches (snd (caches_open (CACHE_NAME cfg) w)) \/
  exists r,
    caches (snd (dispatch sw env (FetchEvent request) w)) =
    update_bucket (CACHE_NAME cfg) (fun b => <[cache_key request := r]> b)
      (caches (snd (caches_open (CACHE_NAME cfg) w))).
Proof.
  destruct (on_fetch sw env request) as [p|] eqn:Hp.
  - destruct (dispatch_fetch_intercepted cfg sw env request w Hsw (ex_intro _ p Hp))
      as [_ ->].
    destruct (net env request) as [|r]; [by left|].
    destruct (ok r); [|by left]. cbn [snd].
    destruct (put_cases cfg request r (snd (caches_open (CACHE_NAME cfg) w))) as [-> | ->].
    + right. by left.
    + right. right. by exists r.
  - left. simpl. by rewrite Hp.
Qed.

Lemma quiet_events env ev w :
  match ev with
  | PushEvent _ | NotificationClickEvent _ | MessageEvent _ => True
  | _ => False
  end ->
  caches (snd (dispatch sw env ev w)) = caches w.
Proof.
  destruct ev as [| | |event_data|data|data]; try done; intros _.
  - destruct Hsw as [-> | ->]; simpl; done.
  - rewrite (dispatch_click cfg sw env data w Hsw), click_runs. simpl.
    destruct (List.find _ _); [|done].
    by destruct (JS.truthy _).
  - destruct Hsw as [-> | ->]; simpl; [done|].
    unfold Landing.message. by destruct (JS.truthy data && _).
Qed.

Lemma open_keeps_others n w :
  n <> CACHE_NAME cfg ->
  find_bucket n (caches (snd (caches_open (CACHE_NAME cfg) w))) = find_bucket n (caches w).
Proof. intros Hn. by apply caches_open_bucket. Qed.

Lemma open_keeps_current w b :
  find_bucket (CACHE_NAME cfg) (caches w) = Some b ->
  find_bucket (CACHE_NAME cfg) (caches (snd (caches_open (CACHE_NAME cfg) w))) = Some b.
Proof. intros Hb. unfold caches_open. by rewrite Hb. Qed.

(** One event: a bucket of another name is kept as it is or deleted, the
    bucket of the current version is kept. *)
Lemma step_footprint env ev w n :
  (n <> CACHE_NAME cfg ->
   find_bucket n (caches (snd (dispatch sw env ev w))) = find_bucket n (caches w) \/
   find_bucket n (caches (snd (dispatch sw env ev w))) = None) /\
  (is_Some (find_bucket (CACHE_NAME cfg) (caches w)) ->
   is_Some (find_bucket (CACHE_NAME cfg) (caches (snd (dispatch sw env ev w))))).
Proof.
  destruct ev as [| |request|event_data|data|data].
  - rewrite install_caches. split.
    + intros Hn. left.
      destruct (gather _ _ _); rewrite ?find_bucket_put_all_ne by done;
        by rewrite install_opened_caches, open_keeps_others.
    + intros _. destruct (install_opened_bucket cfg w) as [b Hb].
      destruct (gather _ _ _); rewrite ?find_bucket_put_all, Hb; by eexists.
  - rewrite activate_world.
    destruct (activate_caches cfg env w n) as (_ & Hgone & _).
    destruct (activate_caches cfg env w (CACHE_NAME cfg)) as (_ & _ & Hkept).
    split; [intros Hn; right; by apply Hgone|]. simpl in Hkept. by rewrite Hkept.
  - destruct (fetch_caches env request w) as [-> | [-> | [r ->]]]; [by split; [left|]| |].
    + split.
      * intros Hn. left. by rewrite open_keeps_others.
      * intros [b Hb]. rewrite (open_keeps_current _ _ Hb). by eexists.
    + split.
      * intros Hn. left. by rewrite find_bucket_update_ne, open_keeps_others.
      * intros [b Hb]. rewrite find_bucket_update_eq, (open_keeps_current _ _ Hb).
        by eexists.
  - rewrite quiet_events by done. by split; [left|].
  - rewrite quiet_events by done. by split; [left|].
  - rewrite quiet_events by done. by split; [left|].
Qed.

(** A fetch event writes at most the entry of the intercepted request. *)
Lemma fetch_writes_one_key env request w b b' k :
  find_bucket (CACHE_NAME cfg) (caches w) = Some b ->
  find_bucket (CACHE_NAME cfg) (caches (snd (dispatch sw env (FetchEvent request) w)))
  = Some b' ->
  k <> cache_key request -> b' !! k = b !! k.
Proof.
  intros Hb Hb' Hk.
  destruct (fetch_caches env request w) as [E | [E | [r E]]]; rewrite E in Hb'.
  - congruence.
  - rewrite (open_keeps_current _ _ Hb) in Hb'. congruence.
  - rewrite find_bucket_update_eq, (open_keeps_current _ _ Hb) in Hb'.
    simpl in Hb'. injection Hb' as <-. by rewrite lookup_insert_ne.
Qed.

Lemma run_footprint evs w n :
  (n <> CACHE_NAME cfg ->
   find_bucket n (caches (run sw evs w)) = find_bucket n (caches w) \/
   find_bucket n (caches (run sw evs w)) = None) /\
  (is_Some (find_bucket (CACHE_NAME cfg) (caches w)) ->
   is_Some (find_bucket (CACHE_NAME cfg) (caches (run sw evs w)))).
Proof.
  revert w. induction evs as [|[env ev] evs IH]; intros w; simpl.
  - by split; [left|].
  - destruct (IH (snd (dispatch sw env ev w))) as [IHo IHc].
    destruct (step_footprint env ev w n) as [Ho Hc]. split.
    + intros Hn. destruct (IHo Hn) as [E|E]; [|by right].
      rewrite E. destruct (Ho Hn) as [E'|E']; [by left|right; congruence].
    + intros H. by apply IHc, Hc.
Qed.

End Footprint.

(** C9. The worker writes to, and keeps, the bucket of its own version
    only. In both scripts, across any sequence of events, each in any
    environment: a bucket whose name differs from [CACHE_NAME] is never
    written, it is as it was or it is deleted; the bucket named
    [CACHE_NAME], once it exists, exists after every event; and a fetch
    event changes in that bucket at most the entry of the intercepted
    request, the one under its URL without the fragment. *)
Theorem current_bucket_survives (cfg : Config) (sw : ServiceWorker)
    (evs : list (Env * Event)) (w : World) :
  sw = App.worker cfg \/ sw = Landing.worker cfg ->
  (forall n, n <> CACHE_NAME cfg ->
     find_bucket n (caches (run sw evs w)) = find_bucket n (caches w) \/
     find_bucket n (caches (run sw evs w)) = None) /\
  (is_Some (find_bucket (CACHE_NAME cfg) (caches w)) ->
   is_Some (find_bucket (CACHE_NAME cfg) (caches (run sw evs w)))) /\
  (forall env request b b' k,
     find_bucket (CACHE_NAME cfg) (caches w) = Some b ->
     find_bucket (CACHE_NAME cfg) (caches (snd (dispatch sw env (FetchEvent request) w)))
     = Some b' ->
     k <> cache_key request -> b' !! k = b !! k).
Proof.
  intros Hsw. split; [|split].
  - intros n Hn. by apply (run_footprint cfg sw Hsw evs w n).
  - by apply (run_footprint cfg sw Hsw evs w (CACHE_NAME cfg)).
  - intros env request b b' k. by apply (fetch_writes_one_key cfg sw Hsw).
Qed.

Lemma current_bucket_survives_witness :
  is_Some (find_bucket (CACHE_NAME App.config) (caches upgraded_world)) /\
  is_Some (find_bucket (CACHE_NAME App.config)
             (caches (run (App.worker App.config) session upgraded_world))) /\
  (find_bucket "colegiospro-v0" (caches (run (App.worker App.config) session upgraded_world))
   = find_bucket "colegiospro-v0" (caches upgraded_world) \/
   find_bucket "colegiospro-v0" (caches (run (App.worker App.config) session upgraded_world))
   = None).
Proof.
  assert (is_Some (find_bucket (CACHE_NAME App.config) (caches upgraded_world))) as Hc.
  { exists ∅. reflexivity. }
  split; [exact Hc|].
  destruct (current_bucket_survives App.config (App.worker App.config) session
              upgraded_world (or_introl eq_refl)) as (Hother & Hcur & _).
  split; [exact (Hcur Hc)|].
  apply Hother. discriminate.
Defined.

(** * Further properties of the listeners *)

(** ** Which requests are intercepted *)

Lemma prefix_spec needle hay :
  String.prefix needle hay = true <-> exists post, hay = needle ++ post.
Proof.
  revert hay. induction needle as [|c needle IH]; intros hay.
  - split; [by exists hay|]. intros _. by destruct hay.
  - destruct hay as [|c' hay]; simpl.
    + split; [done|]. by intros [post H].
    + destruct (Ascii.ascii_dec c c') as [E|Hne].
      * rewrite IH. subst c'. split; intros [post H]; exists post.
        -- simpl. by rewrite H.
        -- simpl in H. by injection H.
      * split; [done|]. intros [post H]. simpl in H. injection H as H1 H2. congruence.
Qed.

(** [includes] is the substring test. *)
Lemma includes_spec hay needle :
  JS.includes hay needle = true <-> exists pre post, hay = pre ++ needle ++ post.
Proof.
  induction hay as [|c hay IH].
  - destruct needle as [|c needle]; simpl.
    + split; [by exists "", ""|done].
    + split; [done|]. intros (pre & post & H). by destruct pre.
  - change (JS.includes (String c hay) needle)
      with (String.prefix needle (String c hay) || JS.includes hay needle).
    rewrite orb_true_iff, prefix_spec, IH. split.
    + intros [[post H] | (pre & post & H)].
      * by exists "", post.
      * exists (String c pre), post. simpl. by rewrite H.
    + intros (pre & post & H). destruct pre as [|c' pre].
      * left. by exists post.
      * right. injection H as _ H. by exists pre, post.
Qed.

Lemma dispatch_fetch_not_intercepted sw env request w :
  dispatch sw env (FetchEvent request) w = (NotIntercepted, w) <->
  on_fetch sw env request = None.
Proof.
  simpl. destruct (on_fetch sw env request) as [p|]; [|done].
  split; [|done]. by destruct (p w).
Qed.

(** X1. Which requests the worker leaves to the browser.
    [src/static/sw.js] returns without calling [respondWith], and changes
    nothing, exactly for the requests that are not GET and for those whose
    URL has ["/ws/"] somewhere in it; the landing worker does so exactly
    for the requests that are not GET. In particular the landing worker
    answers a GET of a ["/ws/"] URL itself. *)
Theorem fetch_interception_scope (cfg : Config) (env : Env) (request : Request) (w : World) :
  (dispatch (App.worker cfg) env (FetchEvent request) w = (NotIntercepted, w) <->
   method request <> "GET" \/ exists pre post, url request = pre ++ "/ws/" ++ post) /\
  (dispatch (Landing.worker cfg) env (FetchEvent request) w = (NotIntercepted, w) <->
   method request <> "GET").
Proof.
  rewrite !dispatch_fetch_not_intercepted. simpl. unfold App.fetch, Landing.fetch.
  rewrite <- includes_spec.
  destruct (String.eqb (method request) "GET") eqn:EG; simpl.
  - apply String.eqb_eq in EG. split.
    + destruct (JS.includes (url request) "/ws/"); split; try done; try by right.
      intros [H|H]; done.
    + split; done.
  - apply String.eqb_neq in EG. split; split; try done; by left.
Qed.

(** ** Responses that are not ok, and the offline round trip *)


(** X2. A response that is not ok is not cached. When the network answers
    an intercepted request with a status outside 200..299, both scripts
    hand that response to the page and leave the world, Cache Storage
    included, exactly as it was. *)
Theorem fetch_error_status_not_cached (cfg : Config) (sw : ServiceWorker) (env : Env)
    (request : Request) (r : Response) (w : World) :
  sw = App.worker cfg \/ sw = Landing.worker cfg ->
  is_Some (on_fetch sw env request) ->
  net env request = NetResponse r ->
  status r < 200 \/ 299 < status r ->
  let (o, w') := dispatch sw env (FetchEvent request) w in
  page_receives env request o = NetResponse r /\ w' = w.
Proof.
  intros Hsw Hi Hr Hs.
  assert (ok r = false) as Hok.
  { unfold ok. apply andb_false_iff. rewrite !Z.leb_gt. lia. }
  destruct (dispatch_fetch_intercepted cfg sw env request w Hsw Hi) as [_ ->].
  by rewrite Hr, Hok.
Qed.

Lemma fetch_error_status_not_cached_witness :
  is_Some (on_fetch (Landing.worker Landing.config) env_not_found demo_request) /\
  net env_not_found demo_request = NetResponse page_404 /\
  (status page_404 < 200 \/ 299 < status page_404) /\
  let (o, w') :=
    dispatch (Landing.worker Landing.config) env_not_found (FetchEvent demo_request)
      fresh_world in
  page_receives env_not_found demo_request o = NetResponse page_404 /\ w' = fresh_world.
Proof.
  assert (status page_404 < 200 \/ 299 < status page_404) as Hs by (right; reflexivity).
  split; [by eexists|]. split; [reflexivity|]. split; [exact Hs|].
  apply (fetch_error_status_not_cached Landing.config (Landing.worker Landing.config)
           env_not_found demo_request page_404 fresh_world).
  - by right.
  - by eexists.
  - reflexivity.
  - exact Hs.
Defined.







(** ** Activation, exactly *)

Lemma filter_twice {A} (f g : A -> bool) (l : list A) :
  List.filter f (List.filter g l) = List.filter (fun x => g x && f x) l.
Proof.
  induction l as [|x l IH]; simpl; [done|].
  destruct (g x); simpl; [|done]. destruct (f x); by rewrite IH.
Qed.

Lemma delete_all_filter ks (cs : CacheStorage) :
  fold_left (fun cs k => delete_bucket k cs) ks cs =
  List.filter (fun nb => negb (existsb (String.eqb (fst nb)) ks)) cs.
Proof.
  revert cs. induction ks as [|k ks IH]; intros cs; simpl.
  - induction cs as [|nb cs IHcs]; simpl; [done|]. by rewrite <- IHcs.
  - rewrite IH. unfold delete_bucket. rewrite filter_twice.
    apply filter_ext. intros nb. by rewrite negb_orb.
Qed.

Lemma delete_stale_filter cfg (cs : CacheStorage) :
  fold_left (fun cs k => delete_bucket k cs) (stale_names cfg cs) cs =
  List.filter (fun nb => String.eqb (fst nb) (CACHE_NAME cfg)) cs.
Proof.
  rewrite delete_all_filter. apply filter_ext_in. intros [n b] Hin. simpl.
  destruct (String.eqb n (CACHE_NAME cfg)) eqn:E.
  - destruct (existsb _ _) eqn:Ex; [|done].
    apply stale_names_existsb in Ex. apply String.eqb_eq in E. done.
  - apply String.eqb_neq in E.
    assert (existsb (String.eqb n) (stale_names cfg cs) = true) as ->; [|done].
    apply existsb_exists. exists n. split; [|apply String.eqb_refl].
    apply in_stale_names. split; [|done].
    apply in_map_iff. by exists (n, b).
Qed.

Lemma filter_without_name name (cs : CacheStorage) :
  ~ In name (bucket_names cs) ->
  List.filter (fun nb => String.eqb (fst nb) name) cs = [].
Proof.
  induction cs as [|[n b] cs IH]; simpl; [done|]. intros Hn.
  destruct (String.eqb n name) eqn:E.
  - apply String.eqb_eq in E. destruct Hn. by left.
  - apply IH. intros H. apply Hn. by right.
Qed.

Lemma dispatch_activate cfg sw env w :
  sw = App.worker cfg \/ sw = Landing.worker cfg ->
  dispatch sw env ActivateEvent w =
  (Settles (Fulfilled tt),
   {| caches := List.filter (fun nb => String.eqb (fst nb) (CACHE_NAME cfg)) (caches w);
      worker := worker w;
      skip_waiting_flag := skip_waiting_flag w;
      effects := (effects w ++ [ClientsClaim])%list |}).
Proof.
  intros Hsw.
  assert (dispatch sw env ActivateEvent w =
          (Settles (fst (Landing.activate cfg env w)), snd (Landing.activate cfg env w))) as ->.
  { destruct Hsw as [-> | ->]; unfold dispatch, App.worker, Landing.worker;
      cbn [on_activate]; rewrite ?app_activate_landing;
      by destruct (Landing.activate cfg env w). }
  rewrite activate_runs. simpl. by rewrite delete_stale_filter.
Qed.

(** X5. Activation, exactly. In both scripts the activate event fulfils
    and leaves the world changed in two ways only: Cache Storage is what it
    was with every bucket of another name than [CACHE_NAME] taken out (the
    bucket of the current version keeps its place and its entries, and is
    not created when it is missing), and [clients.claim()] has been called
    once. *)
Theorem activate_exactly (cfg : Config) (sw : ServiceWorker) (env : Env) (w : World) :
  sw = App.worker cfg \/ sw = Landing.worker cfg ->
  let (o, w') := dispatch sw env ActivateEvent w in
  o = Settles (Fulfilled tt) /\
  caches w' = List.filter (fun nb => String.eqb (fst nb) (CACHE_NAME cfg)) (caches w) /\
  effects w' = (effects w ++ [ClientsClaim])%list /\
  worker w' = worker w /\
  skip_waiting_flag w' = skip_waiting_flag w /\
  (find_bucket (CACHE_NAME cfg) (caches w) = None -> caches w' = []).
Proof.
  intros Hsw. rewrite (dispatch_activate cfg sw env w Hsw). cbn [caches effects worker].
  do 5 (split; [done|]).
  intros Hnone. apply filter_without_name.
  rewrite find_bucket_names, Hnone. by intros [? ?].
Qed.

Lemma activate_exactly_witness :
  let (o, w') := dispatch (App.worker App.config) env_online ActivateEvent upgraded_world in
  o = Settles (Fulfilled tt) /\
  caches w' = [ ("colegiospro-v1", ∅) ] /\
  effects w' = [ClientsClaim].
Proof.
  pose proof (activate_exactly App.config (App.worker App.config) env_online upgraded_world
                (or_introl eq_refl)) as H.
  destruct (dispatch (App.worker App.config) env_online ActivateEvent upgraded_world)
    as [o w'].
  destruct H as (Ho & Hc & He & _). split; [exact Ho|]. split; [exact Hc|exact He].
Defined.

Lemma storage_match_current name request (cs : CacheStorage) :
  NoDup (bucket_names cs) ->
  storage_match request (List.filter (fun nb => String.eqb (fst nb) name) cs) =
  match find_bucket name cs with
  | Some b => bucket_match request b
  | None => None
  end.
Proof.
  induction cs as [|[n b] cs IH]; simpl; [done|].
  intros Hnd. apply NoDup_cons in Hnd as [Hn Hnd]. rewrite list_elem_of_In in Hn.
  destruct (String.eqb n name) eqn:E; simpl; [|by apply IH].
  apply String.eqb_eq in E. subst n.
  rewrite (filter_without_name _ _ Hn). simpl. by destruct (bucket_match request b).
Qed.

(** X6. After activation the fallback serves the current version only.
    Bucket names being distinct, an intercepted request that is issued
    offline after an activate event is answered with what the bucket named
    [CACHE_NAME] held for it (for its URL without the fragment) before the
    activation, and fails when that bucket is missing or has no such entry,
    whatever the buckets of older versions held. *)
Theorem offline_after_activation (cfg : Config) (sw : ServiceWorker) (env env' : Env)
    (request : Request) (w : World) :
  sw = App.worker cfg \/ sw = Landing.worker cfg ->
  is_Some (on_fetch sw env' request) ->
  net env' request = NetError ->
  NoDup (bucket_names (caches w)) ->
  page_receives env' request
    (fst (dispatch sw env' (FetchEvent request) (snd (dispatch sw env ActivateEvent w))))
  = match find_bucket (CACHE_NAME cfg) (caches w) with
    | Some b =>
        match b !! cache_key request with
        | Some r => NetResponse r
        | None => NetError
        end
    | None => NetError
    end.
Proof.
  intros Hsw Hi Hoff Hnd.
  rewrite (dispatch_activate cfg sw env w Hsw). cbn [snd].
  match goal with |- context [dispatch sw env' _ ?w1] =>
    destruct (dispatch_fetch_intercepted cfg sw env' request w1 Hsw Hi) as [HG ->]
  end.
  rewrite Hoff. cbn [fst caches]. rewrite (storage_match_current _ _ _ Hnd).
  unfold page_receives, bucket_match. rewrite HG. simpl.
  destruct (find_bucket (CACHE_NAME cfg) (caches w)) as [b|]; [|done].
  by destruct (b !! cache_key request).
Qed.

Lemma offline_after_activation_witness :
  NoDup (bucket_names (caches stale_world)) /\
  page_receives env_offline demo_request
    (fst (dispatch (App.worker App.config) env_offline (FetchEvent demo_request)
            (snd (dispatch (App.worker App.config) env_online ActivateEvent stale_world))))
  = NetError.
Proof.
  assert (NoDup (bucket_names (caches stale_world))) as Hnd.
  { apply NoDup_singleton. }
  split; [exact Hnd|].
  exact (offline_after_activation App.config (App.worker App.config) env_online env_offline
           demo_request stale_world (or_introl eq_refl)
           (ex_intro _ _ eq_refl) eq_refl Hnd).
Defined.

(** ** Installation: outcome, footprint, and the offline use of the manifest *)

(** How a batch can be rejected. *)
Lemma gather_rejected env urls e :
  gather (net env) (resolve_url env) urls = Rejected e ->
  e = JS.TypeError \/ e = JS.InvalidStateError.
Proof.
  rewrite gather_pairs. destruct (mapM _ _); [|intros [= <-]; by left].
  destruct (distinct _); [done|]. intros [= <-]. by right.
Qed.


Lemma install_opened_current cfg w :
  find_bucket (CACHE_NAME cfg) (caches (install_opened cfg w)) =
  Some (default ∅ (find_bucket (CACHE_NAME cfg) (caches w))).
Proof.
  rewrite install_opened_caches. unfold caches_open.
  destruct (find_bucket (CACHE_NAME cfg) (caches w)) as [b|] eqn:E; simpl.
  - done.
  - by rewrite find_bucket_snoc, E, String.eqb_refl.
Qed.

Lemma install_bucket_lookup cfg sw env w k :
  sw = App.worker cfg \/ sw = Landing.worker cfg ->
  exists b',
    find_bucket (CACHE_NAME cfg) (caches (snd (dispatch sw env InstallEvent w))) = Some b' /\
    (b' !! k = default ∅ (find_bucket (CACHE_NAME cfg) (caches w)) !! k \/
     In k (manifest_keys cfg env)).
Proof.
  intros Hsw. rewrite (install_caches cfg sw Hsw).
  destruct (gather (net env) (resolve_url env) (ASSETS cfg)) as [rs|e] eqn:Hrs.
  - rewrite find_bucket_put_all, install_opened_current. simpl.
    eexists. split; [done|].
    destruct (fold_insert_lookup rs (default ∅ (find_bucket (CACHE_NAME cfg) (caches w))) k)
      as [H | (q & r & Hin & Hq & _)]; [by left|].
    right. rewrite gather_pairs in Hrs.
    destruct (mapM (asset_pair env) (ASSETS cfg)) as [rs'|] eqn:Hm; [|done].
    destruct (distinct _); [|done]. injection Hrs as ->.
    unfold manifest_keys. rewrite <- (pairs_keys env _ rs Hm).
    apply in_map_iff. by exists (q, r).
  - rewrite install_opened_current. eexists. split; [done|by left].
Qed.

(** X8. Install writes under the keys of the manifest only. In both
    scripts, whatever the network does, the bucket of the current version
    exists after the install event and holds, under every key that is not
    the key of a manifest entry (its absolute URL without the fragment),
    just what it held before (nothing when it had to be created). *)
Theorem install_writes_manifest_keys (cfg : Config) (sw : ServiceWorker) (env : Env)
    (w : World) (k : string) :
  sw = App.worker cfg \/ sw = Landing.worker cfg ->
  ~ In k (manifest_keys cfg env) ->
  exists b',
    find_bucket (CACHE_NAME cfg) (caches (snd (dispatch sw env InstallEvent w))) = Some b' /\
    b' !! k = match find_bucket (CACHE_NAME cfg) (caches w) with
              | Some b => b !! k
              | None => None
              end.
Proof.
  intros Hsw Hk.
  destruct (install_bucket_lookup cfg sw env w k Hsw) as (b' & Hb' & [H | H]); [|done].
  exists b'. split; [done|]. rewrite H.
  by destruct (find_bucket (CACHE_NAME cfg) (caches w)).
Qed.

Lemma install_writes_manifest_keys_witness :
  ~ In (site ++ "/robots.txt") (manifest_keys Landing.config env_online) /\
  exists b',
    find_bucket (CACHE_NAME Landing.config)
      (caches (snd (dispatch (Landing.worker Landing.config) env_online InstallEvent
                      fresh_world))) = Some b' /\
    b' !! (site ++ "/robots.txt") = None.
Proof.
  assert (~ In (site ++ "/robots.txt") (manifest_keys Landing.config env_online)) as Hk.
  { simpl. intros [H|[H|[H|[H|[]]]]]; discriminate. }
  split; [exact Hk|].
  exact (install_writes_manifest_keys Landing.config (Landing.worker Landing.config)
           env_online fresh_world (site ++ "/robots.txt") (or_intror eq_refl) Hk).
Defined.

(** X9. Install always asks to skip waiting. In both scripts, whatever
    the network does and however the event settles, the install listener
    calls [skipWaiting] before any other visible call, the skip-waiting
    flag is set afterwards, and the only other call it can make is the log
    line of [src/static/sw.js], with the TypeError or the
    InvalidStateError of the rejected batch. *)
Theorem install_skips_waiting (cfg : Config) (sw : ServiceWorker) (env : Env) (w : World) :
  sw = App.worker cfg \/ sw = Landing.worker cfg ->
  let w' := snd (dispatch sw env InstallEvent w) in
  skip_waiting_flag w' = true /\
  exists rest,
    effects w' = (effects w ++ SkipWaiting :: rest)%list /\
    (rest = [] \/
     rest = [ConsoleLog "Cache addAll failed:" JS.TypeError] \/
     rest = [ConsoleLog "Cache addAll failed:" JS.InvalidStateError]).
Proof.
  intros Hsw.
  assert (skip_waiting_flag (install_opened cfg w) = true) as Hflag.
  { unfold install_opened, caches_open, skipWaiting. simpl.
    by destruct (find_bucket _ _). }
  destruct (gather (net env) (resolve_url env) (ASSETS cfg)) as [rs|e] eqn:Hrs.
  - destruct Hsw as [-> | ->]; unfold dispatch, App.worker, Landing.worker;
      cbn [on_install]; rewrite ?app_install_runs, ?landing_install_runs, Hrs; simpl;
      rewrite install_opened_effects; (split; [done|]); exists []; by split; [|left].
  - destruct Hsw as [-> | ->]; unfold dispatch, App.worker, Landing.worker;
      cbn [on_install]; rewrite ?app_install_runs, ?landing_install_runs, Hrs; simpl;
      rewrite install_opened_effects; (split; [done|]).
    + exists [ConsoleLog "Cache addAll failed:" e].
      rewrite <- app_assoc. split; [done|]. right.
      destruct (gather_rejected env _ e Hrs) as [-> | ->]; [by left|by right].
    + exists []. by split; [|left].
Qed.

Lemma install_skips_waiting_witness :
  let w' := snd (dispatch (Landing.worker Landing.config) env_index_down InstallEvent
                   fresh_world) in
  skip_waiting_flag w' = true /\
  exists rest,
    effects w' = ([] ++ SkipWaiting :: rest)%list /\
    (rest = [] \/
     rest = [ConsoleLog "Cache addAll failed:" JS.TypeError] \/
     rest = [ConsoleLog "Cache addAll failed:" JS.InvalidStateError]).
Proof.
  exact (install_skips_waiting Landing.config (Landing.worker Landing.config)
           env_index_down fresh_world (or_intror eq_refl)).
Defined.






(** ** Push: every shape of payload *)

Lemma or_of_string v dflt :
  v = JS.Undefined \/ (exists s, v = JS.Str s) ->
  exists t, JS.or v (JS.Str dflt) = JS.Str t /\ (dflt <> "" -> t <> "").
Proof.
  intros [-> | [s ->]]; unfold JS.or; simpl.
  - by exists dflt.
  - destruct (String.eqb s "") eqn:E; simpl.
    + by exists dflt.
    + exists s. split; [done|]. intros _. by apply String.eqb_neq.
Qed.

Lemma field_of_payload payload k :
  (forall props, payload = JS.Obj props -> string_field props k) ->
  payload <> JS.Null -> payload <> JS.Undefined ->
  JS.get_opt payload k = JS.Undefined \/ exists s, JS.get_opt payload k = JS.Str s.
Proof.
  intros Hf Hn Hu. destruct payload as [| | | | | |props]; try done; try by left.
  specialize (Hf props eq_refl). unfold string_field in Hf. unfold JS.get_opt. simpl.
  destruct (JS.assoc k props) as [[| | | |s| |]|]; try done; [right; by exists s|by left].
Qed.

(** X11. A push event never goes without its notification, nor the
    notification without a title. In both scripts, for every push event
    whose payload, when it is a JSON object, gives title, body and icon as
    strings or not at all (no data, a body that is not JSON and any other
    JSON value included), the event fulfils and changes nothing in the
    world but for one [showNotification] call; the title shown is a string
    that is not empty, body and icon are strings, and the body is empty
    only when the text of the message is shown as body and that text is
    empty. *)
Theorem push_always_notifies (cfg : Config) (sw : ServiceWorker) (env : Env)
    (event_data : option PushMessageData) (w : World) :
  sw = App.worker cfg \/ sw = Landing.worker cfg ->
  (forall d props, event_data = Some d -> json d = Fulfilled (JS.Obj props) ->
     string_field props "title" /\ string_field props "body" /\ string_field props "icon") ->
  exists title body icon options,
    dispatch sw env (PushEvent event_data) w =
    (Settles (Fulfilled tt), emit (ShowNotification (JS.Str title) options) w) /\
    title <> "" /\
    opt_body options = JS.Str body /\
    opt_icon options = JS.Str icon /\
    (body = "" -> exists d, event_data = Some d /\ text d = "").
Proof.
  intros Hsw Hfields.
  destruct (dispatch_push cfg sw env event_data w Hsw) as [badge ->].
  destruct (push_data_cases cfg event_data) as [-> | (d & payload & -> & Hj & Hn & Hu)].
  - destruct event_data as [d|]; simpl.
    + exists "ColegiosPro", (text d), (ICON cfg). eexists.
      split; [reflexivity|]. split; [done|]. split; [done|]. split; [done|].
      intros E. by exists d.
    + exists "ColegiosPro", "Tiene un nuevo mensaje", (ICON cfg). eexists.
      split; [reflexivity|]. split; [done|]. split; [done|]. by split.
  - rewrite (push_data_value cfg d payload Hj Hn Hu). cbn [d_title d_body d_icon].
    unfold default_title, default_body.
    assert (forall k, k = "title" \/ k = "body" \/ k = "icon" ->
              JS.get_opt payload k = JS.Undefined \/
              exists s, JS.get_opt payload k = JS.Str s) as Hshape.
    { intros k Hk. apply field_of_payload; [|done..].
      intros props ->. destruct (Hfields d props eq_refl Hj) as (Ht & Hb & Hi).
      destruct Hk as [-> | [-> | ->]]; done. }
    destruct (or_of_string _ "ColegiosPro" (Hshape "title" (or_introl eq_refl)))
      as (t & -> & Ht).
    destruct (or_of_string _ "Tiene un nuevo mensaje"
                (Hshape "body" (or_intror (or_introl eq_refl)))) as (b & -> & Hb).
    destruct (or_of_string _ (ICON cfg) (Hshape "icon" (or_intror (or_intror eq_refl))))
      as (i & -> & _).
    exists t, b, i. eexists. split; [reflexivity|]. split; [by apply Ht|].
    split; [done|]. split; [done|]. intros E. by destruct Hb.
Qed.

Lemma push_always_notifies_witness :
  (forall d props, Some push_chat = Some d -> json d = Fulfilled (JS.Obj props) ->
     string_field props "title" /\ string_field props "body" /\ string_field props "icon") /\
  exists title body icon options,
    dispatch (App.worker App.config) env_online (PushEvent (Some push_chat)) fresh_world =
    (Settles (Fulfilled tt), emit (ShowNotification (JS.Str title) options) fresh_world) /\
    title <> "" /\
    opt_body options = JS.Str body /\
    opt_icon options = JS.Str icon /\
    (body = "" -> exists d, Some push_chat = Some d /\ text d = "").
Proof.
  assert (forall d props, Some push_chat = Some d -> json d = Fulfilled (JS.Obj props) ->
            string_field props "title" /\ string_field props "body" /\
            string_field props "icon") as Hf.
  { intros d props [= <-] [= <-]. repeat split. }
  split; [exact Hf|].
  exact (push_always_notifies App.config (App.worker App.config) env_online
           (Some push_chat) fresh_world (or_introl eq_refl) Hf).
Defined.

(** X12. The JSON text [null] is handled as a body that is not JSON.
    Reading a field of the parsed [null] throws inside the same [try]
    block: in both scripts the notification has the default title and
    icon, the text of the message as body, no data envelope and no
    actions. *)
Theorem push_null_payload (cfg : Config) (sw : ServiceWorker) (env : Env)
    (d : PushMessageData) (w : World) :
  sw = App.worker cfg \/ sw = Landing.worker cfg ->
  json d = Fulfilled JS.Null ->
  exists options,
    dispatch sw env (PushEvent (Some d)) w =
    (Settles (Fulfilled tt), emit (ShowNotification (JS.Str "ColegiosPro") options) w) /\
    opt_body options = JS.Str (text d) /\
    opt_icon options = JS.Str (ICON cfg) /\
    opt_data options = JS.Undefined /\
    opt_actions options = JS.Undefined.
Proof.
  intros Hsw Hj. destruct (dispatch_push cfg sw env (Some d) w Hsw) as [badge ->].
  rewrite (push_data_nullish cfg d _ Hj (or_introl eq_refl)).
  eexists. split; [reflexivity|]. by repeat split.
Qed.

Lemma push_null_payload_witness :
  json push_null = Fulfilled JS.Null /\
  exists options,
    dispatch (Landing.worker Landing.config) env_online (PushEvent (Some push_null))
      fresh_world =
    (Settles (Fulfilled tt),
     emit (ShowNotification (JS.Str "ColegiosPro") options) fresh_world) /\
    opt_body options = JS.Str "null" /\
    opt_icon options = JS.Str "/icon-192.png" /\
    opt_data options = JS.Undefined /\
    opt_actions options = JS.Undefined.
Proof.
  split; [reflexivity|].
  exact (push_null_payload Landing.config (Landing.worker Landing.config) env_online
           push_null fresh_world (or_intror eq_refl) eq_refl).
Defined.

(** X13. A JSON body that is not an object loses its text. When the body
    parses to a boolean, a number, a string or an array, no field is found
    and nothing is thrown: in both scripts the notification has the default
    title, the default body (not the text of the message), the default
    icon, the two actions, and a data envelope with url ["/"] and a [null]
    chatMessage. *)
Theorem push_non_object_payload (cfg : Config) (sw : ServiceWorker) (env : Env)
    (d : PushMessageData) (payload : JS.Value) (w : World) :
  sw = App.worker cfg \/ sw = Landing.worker cfg ->
  json d = Fulfilled payload ->
  not_an_object payload ->
  exists options,
    dispatch sw env (PushEvent (Some d)) w =
    (Settles (Fulfilled tt), emit (ShowNotification (JS.Str "ColegiosPro") options) w) /\
    opt_body options = JS.Str "Tiene un nuevo mensaje" /\
    opt_icon options = JS.Str (ICON cfg) /\
    opt_actions options = notification_actions /\
    notification_data options =
    JS.Obj [ ("url", JS.Str "/"); ("chatMessage", JS.Null) ].
Proof.
  intros Hsw Hj Hp. destruct (dispatch_push cfg sw env (Some d) w Hsw) as [badge ->].
  assert (payload <> JS.Null /\ payload <> JS.Undefined) as [Hn Hu].
  { by destruct payload. }
  rewrite (push_data_value cfg d payload Hj Hn Hu).
  assert (forall k, JS.get_opt payload k = JS.Undefined) as Hget.
  { intros k. by destruct payload. }
  rewrite !Hget. eexists. split; [reflexivity|]. by repeat split.
Qed.

Lemma push_non_object_payload_witness :
  json push_quoted_hello = Fulfilled (JS.Str "hello") /\
  not_an_object (JS.Str "hello") /\
  exists options,
    dispatch (App.worker App.config) env_online (PushEvent (Some push_quoted_hello))
      fresh_world =
    (Settles (Fulfilled tt),
     emit (ShowNotification (JS.Str "ColegiosPro") options) fresh_world) /\
    opt_body options = JS.Str "Tiene un nuevo mensaje" /\
    opt_icon options = JS.Str "/static/img/icon-192.png" /\
    opt_actions options = notification_actions /\
    notification_data options =
    JS.Obj [ ("url", JS.Str "/"); ("chatMessage", JS.Null) ].
Proof.
  split; [reflexivity|]. split; [exact I|].
  exact (push_non_object_payload App.config (App.worker App.config) env_online
           push_quoted_hello (JS.Str "hello") fresh_world (or_introl eq_refl) eq_refl I).
Defined.

(** ** From the push to the click *)

(** X14. From the push to the click. When a push body parses as a JSON
    object, a click on the notification that was shown for it, with the
    data the notification was given, does the following after closing it,
    in both scripts: with a matching window client, it focuses that client
    and posts it [OPEN_CHAT] with the payload's chatMessage, unchanged,
    when the payload has a truthy one, and posts nothing otherwise; with
    no matching client, it opens one window, at the payload's url when the
    payload has a truthy one and at ["/"] otherwise. *)
Theorem push_then_click (cfg : Config) (sw : ServiceWorker) (env env' : Env)
    (d : PushMessageData) (props : list (string * JS.Value)) (w w2 : World) :
  sw = App.worker cfg \/ sw = Landing.worker cfg ->
  json d = Fulfilled (JS.Obj props) ->
  exists title options,
    dispatch sw env (PushEvent (Some d)) w =
    (Settles (Fulfilled tt), emit (ShowNotification title options) w) /\
    effects (snd (dispatch sw env' (NotificationClickEvent (notification_data options)) w2)) =
    (effects w2 ++
     NotificationClose ::
     match matching_client env' with
     | Some c =>
         ClientFocus c ::
         match JS.assoc "chatMessage" props with
         | Some m => if JS.truthy m then [ClientPostMessage c (open_chat m)] else []
         | None => []
         end
     | None =>
         [OpenWindow (match JS.assoc "url" props with
                      | Some u => if JS.truthy u then u else JS.Str "/"
                      | None => JS.Str "/"
                      end)]
     end)%list.
Proof.
  intros Hsw Hj. destruct (dispatch_push cfg sw env (Some d) w Hsw) as [badge ->].
  rewrite (push_data_object cfg d props Hj).
  do 2 eexists. split; [reflexivity|].
  rewrite (click_effects cfg sw env' _ w2 Hsw).
  unfold notification_data. cbn [opt_data d_data envelope].
  change (JS.get_opt (JS.Obj _) "chatMessage")
    with (or_default (JS.assoc "chatMessage" props) JS.Null).
  change (JS.get_opt (JS.Obj _) "url")
    with (or_default (JS.assoc "url" props) (JS.Str "/")).
  destruct (matching_client env') as [c|].
  - destruct (JS.assoc "chatMessage" props) as [m|]; simpl; [|done].
    destruct (JS.truthy m) eqn:E; simpl; [|done]. by rewrite E.
  - destruct (JS.assoc "url" props) as [u|]; simpl; [|done].
    unfold JS.or. destruct (JS.truthy u) eqn:E; simpl; [|done]. by rewrite E.
Qed.

Lemma push_then_click_witness :
  json push_chat_message = Fulfilled (JS.Obj [ ("chatMessage", JS.Str "hola") ]) /\
  exists title options,
    dispatch (Landing.worker Landing.config) env_online (PushEvent (Some push_chat_message))
      fresh_world =
    (Settles (Fulfilled tt), emit (ShowNotification title options) fresh_world) /\
    effects (snd (dispatch (Landing.worker Landing.config) env_tab
                    (NotificationClickEvent (notification_data options)) fresh_world)) =
    [ NotificationClose; ClientFocus tab; ClientPostMessage tab (open_chat (JS.Str "hola")) ].
Proof.
  split; [reflexivity|].
  exact (push_then_click Landing.config (Landing.worker Landing.config) env_online env_tab
           push_chat_message _ fresh_world fresh_world (or_intror eq_refl) eq_refl).
Defined.

(** X15. A click on a notification without the two fields. When the data
    of the clicked notification has neither a [url] nor a [chatMessage] of
    its own (it is [null], a primitive, an array, or an object without
    them), both scripts close the notification and then only focus the
    first matching window client, without posting to it, or, when no
    client matches, open ["/"]. *)
Theorem click_without_fields (cfg : Config) (sw : ServiceWorker) (env : Env)
    (data : JS.Value) (w : World) :
  sw = App.worker cfg \/ sw = Landing.worker cfg ->
  JS.has data "url" = false ->
  JS.has data "chatMessage" = false ->
  effects (snd (dispatch sw env (NotificationClickEvent data) w)) =
  (effects w ++
   NotificationClose ::
   match matching_client env with
   | Some c => [ClientFocus c]
   | None => [OpenWindow (JS.Str "/")]
   end)%list.
Proof.
  intros Hsw Hu Hc. rewrite (click_effects cfg sw env data w Hsw).
  assert (forall k, JS.has data k = false -> JS.get_opt data k = JS.Undefined) as Hget.
  { intros k. unfold JS.has, JS.get_opt. destruct data; try done.
    simpl. by destruct (JS.assoc k props). }
  by rewrite (Hget _ Hu), (Hget _ Hc).
Qed.

Lemma click_without_fields_witness :
  JS.has (JS.Str "promo") "url" = false /\
  JS.has (JS.Str "promo") "chatMessage" = false /\
  effects (snd (dispatch (App.worker App.config) env_online
                  (NotificationClickEvent (JS.Str "promo")) fresh_world)) =
  [ NotificationClose; OpenWindow (JS.Str "/") ].
Proof.
  split; [reflexivity|]. split; [reflexivity|].
  exact (click_without_fields App.config (App.worker App.config) env_online
           (JS.Str "promo") fresh_world (or_introl eq_refl) eq_refl eq_refl).
Defined.

(** ** What each listener leaves alone *)

Lemma emit_keeps e w :
  caches (emit e w) = caches w /\ worker (emit e w) = worker w /\
  skip_waiting_flag (emit e w) = skip_waiting_flag w.
Proof. done. Qed.

(** X16. What each listener leaves alone. In both scripts: a fetch event
    makes no visible call and leaves the state of the worker and the
    skip-waiting flag as they are; a push or a notificationclick event
    leaves Cache Storage, the state of the worker and the flag as they are;
    an activate event leaves the state of the worker and the flag as they
    are. *)
Theorem listeners_frame (cfg : Config) (sw : ServiceWorker) (env : Env) (ev : Event)
    (w : World) :
  sw = App.worker cfg \/ sw = Landing.worker cfg ->
  let w' := snd (dispatch sw env ev w) in
  match ev with
  | FetchEvent _ =>
      effects w' = effects w /\ worker w' = worker w /\
      skip_waiting_flag w' = skip_waiting_flag w
  | PushEvent _ | NotificationClickEvent _ =>
      caches w' = caches w /\ worker w' = worker w /\
      skip_waiting_flag w' = skip_waiting_flag w
  | ActivateEvent =>
      worker w' = worker w /\ skip_waiting_flag w' = skip_waiting_flag w
  | InstallEvent | MessageEvent _ => True
  end.
Proof.
  intros Hsw. destruct ev as [| |request|event_data|data|data]; cbn zeta; try done.
  - by rewrite (dispatch_activate cfg sw env w Hsw).
  - destruct (on_fetch sw env request) as [p|] eqn:Hp.
    + destruct (dispatch_fetch_intercepted cfg sw env request w Hsw (ex_intro _ p Hp))
        as [_ ->].
      destruct (net env request) as [|r]; [done|]. destruct (ok r); [|done].
      cbn [snd].
      destruct (put_cases cfg request r (snd (caches_open (CACHE_NAME cfg) w)))
        as [-> | ->]; unfold caches_open; by destruct (find_bucket _ _).
    + simpl. by rewrite Hp.
  - destruct (dispatch_push cfg sw env event_data w Hsw) as [badge ->]. done.
  - rewrite (dispatch_click cfg sw env data w Hsw), click_runs. simpl.
    destruct (List.find _ _); [|done]. by destruct (JS.truthy _).
Qed.

Lemma listeners_frame_witness :
  let w' := snd (dispatch (App.worker App.config) env_online (FetchEvent demo_request)
                   waiting_world) in
  effects w' = effects waiting_world /\ worker w' = worker waiting_world /\
  skip_waiting_flag w' = skip_waiting_flag waiting_world.
Proof.
  exact (listeners_frame App.config (App.worker App.config) env_online
           (FetchEvent demo_request) waiting_world (or_introl eq_refl)).
Defined.

(** ** Installing again *)

Section PutAll.

Implicit Types (cs : CacheStorage) (rs : list (Request * Response)).

Lemma update_bucket_ext name (f g : Bucket -> Bucket) cs :
  (forall b, f b = g b) -> update_bucket name f cs = update_bucket name g cs.
Proof.
  intros H. induction cs as [|[n b] cs IH]; simpl; [done|].
  destruct (String.eqb n name); by rewrite ?H, ?IH.
Qed.

Lemma update_bucket_twice name (f g : Bucket -> Bucket) cs :
  update_bucket name f (update_bucket name g cs) =
  update_bucket name (fun b => f (g b)) cs.
Proof.
  induction cs as [|[n b] cs IH]; simpl; [done|].
  destruct (String.eqb n name) eqn:E; simpl; rewrite E; [done|by rewrite IH].
Qed.

Lemma update_bucket_id name cs : update_bucket name (fun b => b) cs = cs.
Proof.
  induction cs as [|[n b] cs IH]; simpl; [done|].
  destruct (String.eqb n name); by rewrite ?IH.
Qed.

Lemma put_all_as_update name rs cs :
  put_all name rs cs =
  update_bucket name
    (fun b => fold_left (fun acc qr => <[cache_key (fst qr) := snd qr]> acc) rs b) cs.
Proof.
  unfold put_all. revert cs. induction rs as [|qr rs IH]; intros cs; simpl.
  - by rewrite update_bucket_id.
  - by rewrite IH, update_bucket_twice.
Qed.

(** Under a key, a batch either fixes the entry or leaves it alone. *)
Lemma fold_insert_fixed rs (u : string) :
  (exists r, forall b : Bucket,
     fold_left (fun acc qr => <[cache_key (fst qr) := snd qr]> acc) rs b !! u = Some r) \/
  (forall b : Bucket,
     fold_left (fun acc qr => <[cache_key (fst qr) := snd qr]> acc) rs b !! u = b !! u).
Proof.
  induction rs as [|[q r] rs IH]; simpl; [by right|].
  destruct IH as [[r' H] | H].
  - left. exists r'. intros b. apply H.
  - destruct (decide (cache_key q = u)) as [E|E].
    + left. exists r. intros b. rewrite H. subst u. apply lookup_insert_eq.
    + right. intros b. rewrite H. by apply lookup_insert_ne.
Qed.

Lemma fold_insert_idempotent rs (b : Bucket) :
  fold_left (fun acc qr => <[cache_key (fst qr) := snd qr]> acc) rs
    (fold_left (fun acc qr => <[cache_key (fst qr) := snd qr]> acc) rs b) =
  fold_left (fun acc qr => <[cache_key (fst qr) := snd qr]> acc) rs b.
Proof.
  apply map_eq. intros u.
  destruct (fold_insert_fixed rs u) as [[r H] | H]; by rewrite !H.
Qed.

Lemma put_all_idempotent name rs cs :
  put_all name rs (put_all name rs cs) = put_all name rs cs.
Proof.
  rewrite !put_all_as_update, update_bucket_twice.
  apply update_bucket_ext. intros b. apply fold_insert_idempotent.
Qed.

End PutAll.

Lemma install_opened_again cfg w :
  is_Some (find_bucket (CACHE_NAME cfg) (caches w)) ->
  caches (install_opened cfg w) = caches w.
Proof.
  intros [b Hb]. rewrite install_opened_caches. unfold caches_open. by rewrite Hb.
Qed.

(** X17. Installing again changes nothing in the cache. In both scripts,
    a second install event under the same network leaves Cache Storage
    exactly as the first one left it, whether the batch was stored or
    not. *)
Theorem install_idempotent (cfg : Config) (sw : ServiceWorker) (env : Env) (w : World) :
  sw = App.worker cfg \/ sw = Landing.worker cfg ->
  caches (snd (dispatch sw env InstallEvent (snd (dispatch sw env InstallEvent w)))) =
  caches (snd (dispatch sw env InstallEvent w)).
Proof.
  intros Hsw.
  assert (is_Some (find_bucket (CACHE_NAME cfg)
                     (caches (snd (dispatch sw env InstallEvent w))))) as Hsome.
  { rewrite (install_caches cfg sw Hsw).
    destruct (install_opened_bucket cfg w) as [b Hb].
    destruct (gather _ _ _); rewrite ?find_bucket_put_all, Hb; by eexists. }
  rewrite (install_caches cfg sw Hsw env (snd (dispatch sw env InstallEvent w))).
  rewrite (install_opened_again cfg _ Hsome).
  rewrite (install_caches cfg sw Hsw env w).
  destruct (gather _ _ _); [apply put_all_idempotent|done].
Qed.

Lemma install_idempotent_witness :
  caches (snd (dispatch (App.worker App.config) env_online InstallEvent
                 (snd (dispatch (App.worker App.config) env_online InstallEvent
                         upgraded_world)))) =
  caches (snd (dispatch (App.worker App.config) env_online InstallEvent upgraded_world)).
Proof.
  exact (install_idempotent App.config (App.worker App.config) env_online upgraded_world
           (or_introl eq_refl)).
Defined.

(** ** Install, activate, then offline *)






(** ** What src/static/sw.js never caches *)

Lemma strip_fragment_prefix u : exists post, u = (strip_fragment u ++ post)%string.
Proof.
  induction u as [|c u [post IH]]; simpl; [by exists ""|].
  destruct (Ascii.eqb c "#"); [by eexists|].
  exists post. change (String c u = String c (strip_fragment u ++ post)%string). by f_equal.
Qed.

Lemma string_app_assoc (a b c : string) : ((a ++ b) ++ c = a ++ (b ++ c))%string.
Proof.
  induction a as [|x a IH]; [done|].
  change (String x ((a ++ b) ++ c) = String x (a ++ (b ++ c)))%string. by f_equal.
Qed.

Lemma includes_strip_fragment u needle :
  JS.includes (strip_fragment u) needle = true -> JS.includes u needle = true.
Proof.
  rewrite !includes_spec. intros (pre & post & H).
  destruct (strip_fragment_prefix u) as [rest Hu].
  exists pre, (post ++ rest)%string.
  etrans; [exact Hu|]. by rewrite H, !string_app_assoc.
Qed.

Section NoWebSocketEntries.

Variable cfg : Config.

Lemma app_intercepts_no_ws env request :
  is_Some (on_fetch (App.worker cfg) env request) ->
  JS.includes (url request) "/ws/" = false.
Proof.
  simpl. unfold App.fetch. intros [p Hp].
  destruct (negb (String.eqb (method request) "GET")); [done|].
  by destruct (JS.includes (url request) "/ws/").
Qed.

Lemma manifest_keys_no_ws env k :
  (forall a u, In a (ASSETS cfg) -> resolve_url env a = Some u ->
               JS.includes u "/ws/" = false) ->
  In k (manifest_keys cfg env) -> JS.includes k "/ws/" = false.
Proof.
  intros Hassets Hk. unfold manifest_keys in Hk. apply in_map_iff in Hk as (a & <- & Ha).
  destruct (resolve_url env a) as [u|] eqn:Hu; [|done].
  destruct (JS.includes (strip_fragment u) "/ws/") eqn:E; [|done].
  apply includes_strip_fragment in E. by rewrite (Hassets a u Ha Hu) in E.
Qed.

Lemma no_ws_entry_step env ev w :
  (ev = InstallEvent ->
   forall a u, In a (ASSETS cfg) -> resolve_url env a = Some u ->
               JS.includes u "/ws/" = false) ->
  no_ws_entry cfg (caches w) ->
  no_ws_entry cfg (caches (snd (dispatch (App.worker cfg) env ev w))).
Proof.
  intros Hassets Hinv. pose proof (or_introl eq_refl
    : App.worker cfg = App.worker cfg \/ App.worker cfg = Landing.worker cfg) as Hsw.
  assert (forall u, JS.includes u "/ws/" = true ->
            default ∅ (find_bucket (CACHE_NAME cfg) (caches w)) !! u = None) as Hold.
  { intros u Hu.
    destruct (find_bucket (CACHE_NAME cfg) (caches w)) as [b|] eqn:E; simpl; [|done].
    by apply (Hinv b u). }
  destruct ev as [| |request|event_data|data|data].
  - intros b' u Hb' Hu.
    destruct (install_bucket_lookup cfg _ env w u Hsw) as (b'' & Hb'' & [H | H]).
    + rewrite Hb' in Hb''. injection Hb'' as <-. rewrite H. by apply Hold.
    + rewrite (manifest_keys_no_ws env u (Hassets eq_refl) H) in Hu. done.
  - intros b' u Hb' Hu. rewrite (activate_world cfg _ Hsw) in Hb'.
    destruct (activate_caches cfg env w (CACHE_NAME cfg)) as (_ & _ & Hkept).
    simpl in Hkept. rewrite Hkept in Hb'. by apply (Hinv b' u).
  - destruct (on_fetch (App.worker cfg) env request) as [p|] eqn:Hp.
    + pose proof (ex_intro _ p Hp : is_Some (on_fetch (App.worker cfg) env request)) as Hi.
      pose proof (app_intercepts_no_ws env request Hi) as Hws.
      destruct (dispatch_fetch_intercepted cfg _ env request w Hsw Hi) as [_ ->].
      destruct (net env request) as [|r]; [done|]. destruct (ok r); [|done].
      cbn [snd].
      assert (no_ws_entry cfg (caches (snd (caches_open (CACHE_NAME cfg) w)))) as Hopen.
      { intros b' u Hb' Hu.
        rewrite <- install_opened_caches, install_opened_current in Hb'.
        injection Hb' as <-. by apply Hold. }
      destruct (put_cases cfg request r (snd (caches_open (CACHE_NAME cfg) w)))
        as [-> | ->]; [done|].
      intros b' u Hb' Hu. simpl in Hb'.
      rewrite find_bucket_update_eq, <- install_opened_caches, install_opened_current in Hb'.
      simpl in Hb'. injection Hb' as <-.
      rewrite lookup_insert_ne; [by apply Hold|].
      intros E. subst u. apply includes_strip_fragment in Hu. congruence.
    + assert (dispatch (App.worker cfg) env (FetchEvent request) w = (NotIntercepted, w)) as ->.
      { by apply dispatch_fetch_not_intercepted. }
      done.
  - by rewrite (quiet_events cfg _ Hsw env (PushEvent event_data) w I).
  - by rewrite (quiet_events cfg _ Hsw env (NotificationClickEvent data) w I).
  - by rewrite (quiet_events cfg _ Hsw env (MessageEvent data) w I).
Qed.

Lemma no_ws_entry_run evs w :
  (forall env a u, In (env, InstallEvent) evs -> In a (ASSETS cfg) ->
                   resolve_url env a = Some u -> JS.includes u "/ws/" = false) ->
  no_ws_entry cfg (caches w) ->
  no_ws_entry cfg (caches (run (App.worker cfg) evs w)).
Proof.
  revert w. induction evs as [|[env ev] evs IH]; intros w Hassets Hinv; simpl; [done|].
  apply IH.
  - intros env0 a u Hin. apply Hassets. by right.
  - apply no_ws_entry_step; [|done].
    intros -> a u. apply Hassets. by left.
Qed.

End NoWebSocketEntries.

(** X19. [src/static/sw.js] never caches a live-connection URL. If at each
    install event of a run no asset of the manifest resolves to a URL that
    contains ["/ws/"], and the bucket of the current version holds no entry
    under a URL that contains ["/ws/"], then it holds none after the run,
    whatever the events and their environments. *)
Theorem app_never_caches_ws (cfg : Config) (evs : list (Env * Event)) (w : World) :
  (forall env a u, In (env, InstallEvent) evs -> In a (ASSETS cfg) ->
                   resolve_url env a = Some u -> JS.includes u "/ws/" = false) ->
  no_ws_entry cfg (caches w) ->
  no_ws_entry cfg (caches (run (App.worker cfg) evs w)).
Proof. intros Hassets Hinv. by apply no_ws_entry_run. Qed.

Lemma app_never_caches_ws_witness :
  (forall env a u,
     In (env, InstallEvent) ((env_online, FetchEvent ws_request) :: session) ->
     In a (ASSETS App.config) ->
     resolve_url env a = Some u -> JS.includes u "/ws/" = false) /\
  no_ws_entry App.config (caches upgraded_world) /\
  no_ws_entry App.config
    (caches (run (App.worker App.config)
               ((env_online, FetchEvent ws_request) :: session) upgraded_world)).
Proof.
  assert (forall env a u,
            In (env, InstallEvent) ((env_online, FetchEvent ws_request) :: session) ->
            In a (ASSETS App.config) ->
            resolve_url env a = Some u -> JS.includes u "/ws/" = false) as Hassets.
  { intros env a u Hin Ha Hu. simpl in Hin.
    destruct Hin as [Hin|[Hin|Hin]]; [discriminate Hin| |].
    - injection Hin as <-. simpl in Ha, Hu.
      destruct Ha as [<-|[<-|[<-|[<-|[<-|[<-|[]]]]]]]; injection Hu as <-; reflexivity.
    - repeat (destruct Hin as [Hin|Hin]; [discriminate Hin|]). destruct Hin. }
  assert (no_ws_entry App.config (caches upgraded_world)) as Hinv.
  { intros b u Hb _. injection Hb as <-. apply lookup_empty. }
  split; [exact Hassets|]. split; [exact Hinv|].
  exact (app_never_caches_ws App.config ((env_online, FetchEvent ws_request) :: session)
           upgraded_world Hassets Hinv).
Defined.
